(** * status-go: node lifecycle manager, jail execution policy, message status

    A shallow embedding of three pieces of the repository:

    - [Message]: the whisper message delivery [Status] and its [String]
      method;
    - [Node]: [NodeManager] (start, stop, reset of the Status node), as
      explicit state passing over the manager's fields, the channels it
      creates, the signals it sends and the directories it removes;
    - [Jail]: [ExecutionPolicy], the routing of JSON-RPC requests issued
      from a jail cell, in a state-and-error monad over the log of calls
      made on the RPC client.

    External collaborators (the go-ethereum node, the RPC client, the
    otto VM, the keystore) appear as records of the answers they give. *)

From Stdlib Require Import ZArith Lia DecimalString.
From stdpp Require Import base list strings.

Local Open Scope string_scope.
Local Open Scope list_scope.
Local Open Scope Z_scope.

(** ** Go's [error] values

    The kinds of error value the code tells apart: a plain error with
    its message ([errors.New], [fmt.Errorf]), an error that implements
    [rpc.Error] and so has a code, and [common.StopRPCCallError], which
    wraps another error. *)
Inductive error :=
| errors_New (msg : string)
| rpc_Error (code : Z) (msg : string)
| StopRPCCallError (Err : error).

(** The [Error()] method.  (That of [StopRPCCallError] gives the
    message of the error it wraps.) *)
Fixpoint Error (e : error) : string :=
  match e with
  | errors_New msg => msg
  | rpc_Error _ msg => msg
  | StopRPCCallError e' => Error e'
  end.

(** A Go result pair [(T, error)]: [Ok v] is a value returned with a nil
    error, [Err e] a non-nil error (the value is then the zero value and
    is not looked at). *)
Inductive result (A : Type) : Type :=
| Ok (v : A)
| Err (e : error).
Arguments Ok {A} v.
Arguments Err {A} e.

(** The only quote-bearing piece of the string constants below. *)
Definition dq : string := String (Ascii.ascii_of_nat 34) EmptyString.

(* ================================================================== *)
(** * package message *)
(* ================================================================== *)
Module Message.

(** [type Status int] *)
Definition Status := Z.

(** [const ( PendingStatus Status = iota ... )] *)
Definition PendingStatus : Status := 0.
Definition QueuedStatus : Status := 1.
Definition CachedStatus : Status := 2.
Definition SentStatus : Status := 3.
Definition ExpiredStatus : Status := 4.
Definition ResendStatus : Status := 5.
Definition FutureStatus : Status := 6.
Definition LowPowStatus : Status := 7.
Definition InvalidAESStatus : Status := 8.
Definition OversizedMessageStatus : Status := 9.
Definition OversizedVersionStatus : Status := 10.
Definition RejectedStatus : Status := 11.
Definition DeliveredStatus : Status := 12.

(** The constants of the [const] block, in declaration order. *)
Definition declared_statuses : list Status :=
  [ PendingStatus; QueuedStatus; CachedStatus; SentStatus; ExpiredStatus;
    ResendStatus; FutureStatus; LowPowStatus; InvalidAESStatus;
    OversizedMessageStatus; OversizedVersionStatus; RejectedStatus;
    DeliveredStatus ].

(** [func (s Status) String() string]: the [switch], case by case in
    source order, and the final [return "unknown"]. *)
Definition String (s : Status) : string :=
  if s =? PendingStatus then "Pending"
  else if s =? QueuedStatus then "Queued"
  else if s =? SentStatus then "Sent"
  else if s =? RejectedStatus then "Rejected"
  else if s =? DeliveredStatus then "Delivered"
  else if s =? ExpiredStatus then "ExpiredTTL"
  else if s =? ResendStatus then "Resend"
  else if s =? FutureStatus then "FutureDelivery"
  else if s =? LowPowStatus then "LowPOWValue"
  else if s =? InvalidAESStatus then "Invalid AES-GCM-Nonce"
  else if s =? OversizedMessageStatus then "OversizedMessage"
  else if s =? OversizedVersionStatus then "HigherWhisperVersion"
  else "unknown".

End Message.

(* ================================================================== *)
(** * package params: the configuration fields the code reads *)
(* ================================================================== *)
Module Params.

(** [params.UpstreamRPCConfig] *)
Record UpstreamRPCConfig := {
  Enabled : bool;
  URL : string
}.

(** [params.BootClusterConfig] *)
Record BootClusterConfig := {
  BootEnabled : bool;          (* BootClusterConfig.Enabled *)
  BootNodes : list string
}.

(** [params.NodeConfig].  [NetworkID] is an integer the code converts
    with [int64(...)]; it is kept as an unbounded integer here and the
    conversion is written out where the code makes it. *)
Record NodeConfig := {
  NetworkID : Z;
  DataDir : string;
  Name : string;
  LogLevel : string;
  LogFile : string;
  UpstreamConfig : UpstreamRPCConfig;
  BootCluster : BootClusterConfig
}.

End Params.

(* ================================================================== *)
(** * package signal: envelopes handed to [signal.Send] *)
(* ================================================================== *)
Module Signal.

Inductive EventType :=
| EventNodeStarted
| EventNodeStopped
| EventNodeCrashed
| EventChainDataRemoved.

(** The [Event] payloads the node manager sends: [struct{}{}] and
    [signal.NodeCrashEvent{Error: ...}]. *)
Inductive Event :=
| Empty
| NodeCrashEvent (Error : string).

Record Envelope := {
  Type_ : EventType;
  Event_ : Event
}.

End Signal.

(* ================================================================== *)
(** * package node: NodeManager *)
(* ================================================================== *)
Module Node.
Import Params Signal.

(** [var ( Err... = errors.New(...) )] *)
Definition ErrNodeExists : error :=
  errors_New "node is already running".
Definition ErrNoRunningNode : error :=
  errors_New "there is no running node".
Definition ErrInvalidNodeManager : error :=
  errors_New "node manager is not properly initialized".
Definition ErrInvalidWhisperService : error :=
  errors_New "whisper service is unavailable".
Definition ErrInvalidLightEthereumService : error :=
  errors_New "LES service is unavailable".
Definition ErrInvalidAccountManager : error :=
  errors_New "could not retrieve account manager".
Definition ErrAccountKeyStoreMissing : error :=
  errors_New "account key store is not set".
Definition ErrRPCClient : error :=
  errors_New "failed to init RPC client".

(** ** The collaborators' values *)

(** A channel is its index in the store of channels made so far. *)
Abbreviation chan := nat (only parsing).

(** Handles of go-ethereum objects the manager only passes around. *)
Record KeyStore := { ks_id : nat }.
Record Whisper := { shh_id : nat }.
Record LightEthereum := { les_id : nat }.
Record Client := { client_id : nat }.

(** What [accountManager.Backends(keystore.KeyStoreType)] holds: a
    backend is a [*keystore.KeyStore] or something else. *)
Inductive Backend :=
| KeyStoreBackend (ks : KeyStore)
| OtherBackend.

(** [*accounts.Manager] *)
Record accounts_Manager := { Backends : list Backend }.

(** A go-ethereum [*node.Node], with the answers its methods give:
    what [Start] and [Stop] return, [AccountManager()], and the error of
    [Service(&x)] for the LES and the whisper service. *)
Record GethNode := {
  node_id : nat;
  node_Start : option error;
  node_Stop : option error;
  node_AccountManager : option accounts_Manager;
  node_Service_les : option error;
  node_Service_whisper : option error
}.

(** [node.ErrNodeStopped], returned by [Stop] on a stack that is not
    running. *)
Definition ErrNodeStopped : error :=
  errors_New "node not started".

(** The goroutines the manager spawns, as data: which [go func] it is
    and the variables its closure captured. *)
Inductive Task :=
| GoStartNode (ethNode : GethNode) (config : NodeConfig)
    (* the [go func] of startNode, not yet run *)
| GoNodeWait
    (* the same goroutine, parked in [m.node.Wait()] *)
| GoPopulateStaticPeers
    (* the [go func] calling m.PopulateStaticPeers() *)
| GoStopNode (nodeStopped : chan).
    (* the [go func] of stopNode *)

(** [type NodeManager struct]: the fields; each lock guards one field
    and every locked access is one step of the model. *)
Record NodeManager := {
  config : option NodeConfig;
  node : option GethNode;
  nodeStarted : option chan;
  nodeStopped : option chan;
  whisperService : option Whisper;
  lesService : option LightEthereum;
  rpcClient : option Client
}.

(** What the manager acts on besides its own fields. *)
Record World := {
  chans : list bool;               (* channels made so far; [true] = closed *)
  alive : list nat;                (* ids of the nodes whose stack runs *)
  peers : list (nat * string);     (* static peers added, per node id *)
  signals : list Envelope;         (* envelopes sent, oldest first *)
  fs : list string;                (* paths that exist on disk *)
  pending : list Task              (* goroutines spawned and not finished *)
}.

Record State := {
  mgr : NodeManager;
  world : World
}.

(** [NewNodeManager]: [&NodeManager{}], every field nil.  (The
    goroutine it starts, [HaltOnInterruptSignal], only reacts to an
    interrupt of the process.) *)
Definition NewNodeManager : NodeManager :=
  {| config := None; node := None; nodeStarted := None; nodeStopped := None;
     whisperService := None; lesService := None; rpcClient := None |}.

(** Functions of the repository's other files, of the Go library and of
    go-ethereum that the manager calls. *)
Record Env := {
  MakeNode : NodeConfig -> result GethNode;
  NewClient : option GethNode -> UpstreamRPCConfig -> result Client;
  ParseNode : string -> option error;        (* discover.ParseNode's error *)
  RemoveAll_error : string -> option error;  (* os.RemoveAll's error *)
  filepath_Join : list string -> string;
  ErrNodeStartFailure : error
}.

(** ** Running the code: a thread returns, blocks for good, or panics *)
Inductive Res (A : Type) : Type :=
| Ret (a : A) (s : State)
| Block (s : State)
| Panic (s : State).
Arguments Ret {A} a s.
Arguments Block {A} s.
Arguments Panic {A} s.

Definition M (A : Type) : Type := State -> Res A.

Definition ret {A} (a : A) : M A := fun s => Ret a s.

Definition bind {A B} (c : M A) (k : A -> M B) : M B :=
  fun s =>
    match c s with
    | Ret a s' => k a s'
    | Block s' => Block s'
    | Panic s' => Panic s'
    end.

Definition block {A} : M A := fun s => Block s.
Definition panic {A} : M A := fun s => Panic s.

Notation "'do' x <- c ; k" := (bind c (fun x => k))
  (at level 10, x name, c at level 100, k at level 200).
Notation "'exec' c ; k" := (bind c (fun _ => k))
  (at level 10, c at level 100, k at level 200).

Definition get_mgr : M NodeManager := fun s => Ret (mgr s) s.
Definition get_world : M World := fun s => Ret (world s) s.
Definition put_mgr (m : NodeManager) : M unit :=
  fun s => Ret tt {| mgr := m; world := world s |}.
Definition put_world (w : World) : M unit :=
  fun s => Ret tt {| mgr := mgr s; world := w |}.

Definition with_chans (l : list bool) (w : World) : World :=
  {| chans := l; alive := alive w; peers := peers w; signals := signals w;
     fs := fs w; pending := pending w |}.
Definition with_alive (l : list nat) (w : World) : World :=
  {| chans := chans w; alive := l; peers := peers w; signals := signals w;
     fs := fs w; pending := pending w |}.
Definition with_peers (l : list (nat * string)) (w : World) : World :=
  {| chans := chans w; alive := alive w; peers := l; signals := signals w;
     fs := fs w; pending := pending w |}.
Definition with_signals (l : list Envelope) (w : World) : World :=
  {| chans := chans w; alive := alive w; peers := peers w; signals := l;
     fs := fs w; pending := pending w |}.
Definition with_fs (l : list string) (w : World) : World :=
  {| chans := chans w; alive := alive w; peers := peers w; signals := signals w;
     fs := l; pending := pending w |}.
Definition with_pending (l : list Task) (w : World) : World :=
  {| chans := chans w; alive := alive w; peers := peers w; signals := signals w;
     fs := fs w; pending := l |}.

(** ** Channels, signals, goroutines *)

(** [make(chan struct{}, 1)]: a fresh open channel.  Nothing is ever
    sent on the manager's channels, so the buffer stays empty and a
    receive returns only once the channel is closed. *)
Definition make_chan : M chan :=
  do w <- get_world;
  exec put_world (with_chans (chans w ++ [false]) w);
  ret (length (chans w)).

Definition chan_closed (c : chan) (w : World) : bool :=
  match chans w !! c with
  | Some b => b
  | None => false
  end.

(** [close(c)]: panics on a nil channel and on a closed one. *)
Definition close (c : option chan) : M unit :=
  match c with
  | None => panic
  | Some c =>
      do w <- get_world;
      match chans w !! c with
      | Some false => put_world (with_chans (<[c := true]> (chans w)) w)
      | _ => panic
      end
  end.

(** [<-c] by a thread that lets no goroutine run meanwhile: returns on
    a closed channel, blocks for good on an open or a nil one. *)
Definition recv (c : option chan) : M unit :=
  match c with
  | None => block
  | Some c =>
      do w <- get_world;
      if chan_closed c w then ret tt else block
  end.

(** [signal.Send] *)
Definition signal_Send (e : Envelope) : M unit :=
  do w <- get_world;
  put_world (with_signals (signals w ++ [e]) w).

(** [go func() {...}()]: the goroutine is queued. *)
Definition go (t : Task) : M unit :=
  do w <- get_world;
  put_world (with_pending (pending w ++ [t]) w).

(** ** The go-ethereum node *)

(** [n.Start()] *)
Definition Node_Start (n : GethNode) : M (option error) :=
  match node_Start n with
  | Some e => ret (Some e)
  | None =>
      do w <- get_world;
      exec put_world (with_alive (node_id n :: alive w) w);
      ret None
  end.

(** [n.Stop()]: [ErrNodeStopped] on a stack that does not run; otherwise
    the stack is stopped, also when stopping a service failed. *)
Definition Node_Stop (n : GethNode) : M (option error) :=
  do w <- get_world;
  if bool_decide (node_id n ∈ alive w) then
    exec put_world (with_alive (filter (λ i, i ≠ node_id n) (alive w)) w);
    ret (node_Stop n)
  else ret (Some ErrNodeStopped).

(** [n.Wait()]: returns once the stack is stopped. *)
Definition Node_Wait (n : GethNode) : M unit :=
  do w <- get_world;
  if bool_decide (node_id n ∈ alive w) then block else ret tt.

(** [n.Server()] is nil unless the stack runs. *)
Definition Node_Server_isNil (n : GethNode) : M bool :=
  do w <- get_world;
  ret (negb (bool_decide (node_id n ∈ alive w))).

(** ** The files *)

(** [p] is the directory [dir] or lies below it. *)
Definition under (dir p : string) : bool :=
  String.eqb dir p || String.prefix (dir +:+ "/") p.

(** [_, err := os.Stat(p); os.IsNotExist(err)] and the error returned. *)
Definition os_Stat_IsNotExist (p : string) : M bool :=
  do w <- get_world;
  ret (negb (bool_decide (p ∈ fs w))).

Definition stat_error (p : string) : error :=
  errors_New ("stat " +:+ p +:+ ": no such file or directory").

(** [os.RemoveAll(p)] *)
Definition os_RemoveAll (E : Env) (p : string) : M (option error) :=
  match RemoveAll_error E p with
  | Some e => ret (Some e)
  | None =>
      do w <- get_world;
      exec put_world (with_fs (filter (λ q, under p q = false) (fs w)) w);
      ret None
  end.

(** ** The manager's locked field accesses *)

Definition setConfig (c : option NodeConfig) : M unit :=
  do m <- get_mgr;
  put_mgr {| config := c; node := node m; nodeStarted := nodeStarted m;
             nodeStopped := nodeStopped m; whisperService := whisperService m;
             lesService := lesService m; rpcClient := rpcClient m |}.

(** [getConfig] returns a copy of the configuration, or nil. *)
Definition getConfig : M (option NodeConfig) :=
  do m <- get_mgr; ret (config m).

(** [m.config.X] on a nil [m.config] is a nil dereference. *)
Definition getBootClusterEnabled : M bool :=
  do m <- get_mgr;
  match config m with
  | None => panic
  | Some c => ret (BootEnabled (BootCluster c))
  end.

Definition getUpstreamConfig : M UpstreamRPCConfig :=
  do m <- get_mgr;
  match config m with
  | None => panic
  | Some c => ret (UpstreamConfig c)
  end.

Definition getBootNodes : M (list string) :=
  do m <- get_mgr;
  match config m with
  | None => panic
  | Some c => ret (BootNodes (BootCluster c))
  end.

Definition setNode (n : option GethNode) : M unit :=
  do m <- get_mgr;
  put_mgr {| config := config m; node := n; nodeStarted := nodeStarted m;
             nodeStopped := nodeStopped m; whisperService := whisperService m;
             lesService := lesService m; rpcClient := rpcClient m |}.

Definition getNode : M (option GethNode) :=
  do m <- get_mgr; ret (node m).

Definition setNodeStarted (c : option chan) : M unit :=
  do m <- get_mgr;
  put_mgr {| config := config m; node := node m; nodeStarted := c;
             nodeStopped := nodeStopped m; whisperService := whisperService m;
             lesService := lesService m; rpcClient := rpcClient m |}.

Definition nodeStartedIsNil : M bool :=
  do m <- get_mgr;
  ret (match nodeStarted m with None => true | Some _ => false end).

(** [readNodeStarted]: [<-m.nodeStarted] under the read lock.  The
    reader keeps the lock while it waits and [closeNodeStarted] needs
    the write lock, so a reader that finds the channel open is not
    woken up by a later close: it returns only on a closed channel. *)
Definition readNodeStarted : M unit :=
  do m <- get_mgr; recv (nodeStarted m).

Definition closeNodeStarted : M unit :=
  do m <- get_mgr; close (nodeStarted m).

Definition setNodeStopped (c : option chan) : M unit :=
  do m <- get_mgr;
  put_mgr {| config := config m; node := node m; nodeStarted := nodeStarted m;
             nodeStopped := c; whisperService := whisperService m;
             lesService := lesService m; rpcClient := rpcClient m |}.

Definition nodeStoppedIsNil : M bool :=
  do m <- get_mgr;
  ret (match nodeStopped m with None => true | Some _ => false end).

Definition readNodeStopped : M unit :=
  do m <- get_mgr; recv (nodeStopped m).

Definition closeNodeStopped : M unit :=
  do m <- get_mgr; close (nodeStopped m).

Definition setWhisperService (x : option Whisper) : M unit :=
  do m <- get_mgr;
  put_mgr {| config := config m; node := node m; nodeStarted := nodeStarted m;
             nodeStopped := nodeStopped m; whisperService := x;
             lesService := lesService m; rpcClient := rpcClient m |}.

Definition getWhisperService : M (option Whisper) :=
  do m <- get_mgr; ret (whisperService m).

Definition whisperServiceIsNil : M bool :=
  do m <- get_mgr;
  ret (match whisperService m with None => true | Some _ => false end).

Definition setLesService (x : option LightEthereum) : M unit :=
  do m <- get_mgr;
  put_mgr {| config := config m; node := node m; nodeStarted := nodeStarted m;
             nodeStopped := nodeStopped m; whisperService := whisperService m;
             lesService := x; rpcClient := rpcClient m |}.

Definition getLesService : M (option LightEthereum) :=
  do m <- get_mgr; ret (lesService m).

Definition lesServiceIsNil : M bool :=
  do m <- get_mgr;
  ret (match lesService m with None => true | Some _ => false end).

Definition setRPCClient (c : option Client) : M unit :=
  do m <- get_mgr;
  put_mgr {| config := config m; node := node m; nodeStarted := nodeStarted m;
             nodeStopped := nodeStopped m; whisperService := whisperService m;
             lesService := lesService m; rpcClient := c |}.

Definition getRPCClient : M (option Client) :=
  do m <- get_mgr; ret (rpcClient m).

Definition rpcClientIsNil : M bool :=
  do m <- get_mgr;
  ret (match rpcClient m with None => true | Some _ => false end).

(** [isNodeAvailable]: the error, nil when a node is there. *)
Definition isNodeAvailable : M (option error) :=
  do isNil <- nodeStartedIsNil;
  if isNil then ret (Some ErrNoRunningNode)
  else
    do n <- getNode;
    match n with
    | None => ret (Some ErrNoRunningNode)
    | Some _ => ret None
    end.

(** [reset] *)
Definition reset : M unit :=
  exec setConfig None;
  exec setLesService None;
  exec setWhisperService None;
  exec setRPCClient None;
  exec setNodeStarted None;
  setNode None.

(** [initLog] only configures the logger, which is not part of the
    state; the [log.*] calls are left out throughout. *)
Definition initLog (c : NodeConfig) : M unit := ret tt.

(** ** Static peers *)

(** [addPeer] *)
Definition addPeer (E : Env) (url : string) : M (option error) :=
  do m <- get_mgr;
  match node m with
  | None => panic
  | Some n =>
      do serverIsNil <- Node_Server_isNil n;
      if serverIsNil then ret (Some ErrNoRunningNode)
      else
        match ParseNode E url with
        | Some err => ret (Some err)
        | None =>
            do w <- get_world;
            exec put_world (with_peers (peers w ++ [(node_id n, url)]) w);
            ret None
        end
  end.

(** The [for _, enode := range ...] loop of populateStaticPeers: a
    failed addition is logged and skipped. *)
Fixpoint addPeers (E : Env) (enodes : list string) : M unit :=
  match enodes with
  | [] => ret tt
  | enode :: rest =>
      do _err <- addPeer E enode;
      addPeers E rest
  end.

(** [populateStaticPeers] *)
Definition populateStaticPeers (E : Env) : M (option error) :=
  do enabled <- getBootClusterEnabled;
  if negb enabled then ret None
  else
    do enodes <- getBootNodes;
    exec addPeers E enodes;
    ret None.

(** [PopulateStaticPeers] *)
Definition PopulateStaticPeers (E : Env) : M (option error) :=
  do err <- isNodeAvailable;
  match err with
  | Some err => ret (Some err)
  | None =>
      exec readNodeStarted;
      populateStaticPeers E
  end.

(** [AddPeer] *)
Definition AddPeer (E : Env) (url : string) : M (option error) :=
  do err <- isNodeAvailable;
  match err with
  | Some err => ret (Some err)
  | None =>
      exec readNodeStarted;
      addPeer E url
  end.

(** ** The goroutines' bodies

    A body runs until the goroutine ends ([None]) or reaches the point
    where it goes on as another task ([Some t]). *)

(** The [go func] of startNode, up to [m.node.Wait()]. *)
Definition go_startNode (E : Env) (ethNode : GethNode) (config : NodeConfig)
  : M (option Task) :=
  do err <- Node_Start ethNode;
  match err with
  | Some err =>
      exec closeNodeStarted;
      exec setNodeStarted None;
      exec signal_Send
        {| Type_ := EventNodeCrashed;
           Event_ :=
             NodeCrashEvent
               (Error (ErrNodeStartFailure E) +:+ ": " +:+ Error err) |};
      ret None
  | None =>
      exec setNode (Some ethNode);
      do c <- make_chan;
      exec setNodeStopped (Some c);
      exec setConfig (Some config);
      do n <- getNode;
      do upstream <- getUpstreamConfig;
      match NewClient E n upstream with
      | Err _ =>
          exec signal_Send
            {| Type_ := EventNodeCrashed;
               Event_ := NodeCrashEvent (Error ErrRPCClient) |};
          ret None
      | Ok rpcClient =>
          exec setRPCClient (Some rpcClient);
          exec go GoPopulateStaticPeers;
          exec closeNodeStarted;
          exec signal_Send {| Type_ := EventNodeStarted; Event_ := Empty |};
          ret (Some GoNodeWait)
      end
  end.

(** The rest of that goroutine: [m.node.Wait()], [closeNodeStopped]. *)
Definition go_nodeWait : M (option Task) :=
  do m <- get_mgr;
  match node m with
  | None => panic
  | Some n =>
      exec Node_Wait n;
      exec closeNodeStopped;
      ret None
  end.

(** The [go func] around [m.PopulateStaticPeers()]. *)
Definition go_populateStaticPeers (E : Env) : M (option Task) :=
  do _err <- PopulateStaticPeers E;
  ret None.

(** The [go func] of stopNode. *)
Definition go_stopNode (nodeStopped : chan) : M (option Task) :=
  exec readNodeStopped;
  exec reset;
  exec close (Some nodeStopped);
  exec signal_Send {| Type_ := EventNodeStopped; Event_ := Empty |};
  ret None.

Definition body (E : Env) (t : Task) : M (option Task) :=
  match t with
  | GoStartNode ethNode config => go_startNode E ethNode config
  | GoNodeWait => go_nodeWait
  | GoPopulateStaticPeers => go_populateStaticPeers E
  | GoStopNode nodeStopped => go_stopNode nodeStopped
  end.

(** ** Scheduling

    Goroutines run cooperatively: a spawned goroutine waits in
    [pending] and runs, in spawn order, when the spawning thread waits
    on a channel.  A goroutine that cannot go on is parked and tried
    again in the next pass; every body blocks before it writes
    anything, so a parked goroutine has left the state as it was. *)

(** One turn of a goroutine: what is left of it, if anything. *)
Definition run_task (E : Env) (t : Task) : M (option Task) :=
  fun s =>
    match body E t s with
    | Ret None s' => Ret None s'
    | Ret (Some t') s' =>
        match body E t' s' with
        | Block _ => Ret (Some t') s'
        | r => r
        end
    | Block _ => Ret (Some t) s
    | Panic s' => Panic s'
    end.

(** The goroutines of [ts] in order; the parked ones are returned. *)
Fixpoint run_tasks (E : Env) (ts : list Task) : M (list Task) :=
  match ts with
  | [] => ret []
  | t :: rest =>
      do r <- run_task E t;
      do parked <- run_tasks E rest;
      ret (match r with Some t' => t' :: parked | None => parked end)
  end.

(** One pass over the pending goroutines; those spawned during the pass
    queue up behind the parked ones. *)
Definition run_pass (E : Env) : M unit :=
  do w <- get_world;
  exec put_world (with_pending [] w);
  do parked <- run_tasks E (pending w);
  do w' <- get_world;
  put_world (with_pending (parked ++ pending w') w').

Fixpoint await_loop (E : Env) (fuel : nat) (c : chan) : M unit :=
  do w <- get_world;
  if chan_closed c w then ret tt
  else
    match fuel with
    | O => block
    | S fuel' => exec run_pass E; await_loop E fuel' c
    end.

(** [<-c] by a thread that lets the pending goroutines run while it
    waits.  A goroutine takes at most three turns (start, wait, and the
    peers goroutine it spawns), so [3 * n + 1] passes over [n] pending
    goroutines either close [c] or leave every goroutine parked. *)
Definition await (E : Env) (c : option chan) : M unit :=
  match c with
  | None => block
  | Some c =>
      do w <- get_world;
      await_loop E (3 * length (pending w) + 1) c
  end.

(** ** Starting and stopping *)

(** [startNode] *)
Definition startNode (E : Env) (config : Params.NodeConfig)
  : M (result (option chan)) :=
  do n <- getNode;
  do startedIsNil <- nodeStartedIsNil;
  if (match n with Some _ => true | None => false end) || negb startedIsNil
  then ret (Err ErrNodeExists)
  else
    exec initLog config;
    match MakeNode E config with
    | Err err => ret (Err err)
    | Ok ethNode =>
        do c <- make_chan;
        exec setNodeStarted (Some c);
        exec go (GoStartNode ethNode config);
        do m <- get_mgr;
        ret (Ok (nodeStarted m))
    end.

(** [StartNode] *)
Definition StartNode (E : Env) (config : Params.NodeConfig)
  : M (result (option chan)) :=
  startNode E config.

(** [stopNode] *)
Definition stopNode : M (result chan) :=
  do m <- get_mgr;
  match node m with
  | None => panic
  | Some n =>
      do err <- Node_Stop n;
      match err with
      | Some err => ret (Err err)
      | None =>
          do nodeStopped <- make_chan;
          exec go (GoStopNode nodeStopped);
          ret (Ok nodeStopped)
      end
  end.

(** [StopNode] *)
Definition StopNode : M (result chan) :=
  do err <- isNodeAvailable;
  match err with
  | Some err => ret (Err err)
  | None =>
      do stoppedIsNil <- nodeStoppedIsNil;
      if stoppedIsNil then ret (Err ErrNoRunningNode)
      else
        exec readNodeStarted;
        stopNode
  end.

(** [IsNodeRunning] *)
Definition IsNodeRunning : M bool :=
  do err <- isNodeAvailable;
  match err with
  | Some _ => ret false
  | None =>
      exec readNodeStarted;
      ret true
  end.

(** [resetChainData] *)
Definition resetChainData (E : Env) : M (result (option chan)) :=
  do prevConfig <- getConfig;
  do r <- stopNode;
  match r with
  | Err err => ret (Err err)
  | Ok nodeStopped =>
      exec await E (Some nodeStopped);
      match prevConfig with
      | None => panic
      | Some prevConfig =>
          let chainDataDir :=
            filepath_Join E [DataDir prevConfig; Name prevConfig; "lightchaindata"] in
          do notExist <- os_Stat_IsNotExist chainDataDir;
          if notExist then ret (Err (stat_error chainDataDir))
          else
            do err <- os_RemoveAll E chainDataDir;
            match err with
            | Some err => ret (Err err)
            | None =>
                exec signal_Send
                  {| Type_ := EventChainDataRemoved; Event_ := Empty |};
                startNode E prevConfig
            end
      end
  end.

(** [ResetChainData] *)
Definition ResetChainData (E : Env) : M (result (option chan)) :=
  do err <- isNodeAvailable;
  match err with
  | Some err => ret (Err err)
  | None =>
      exec readNodeStarted;
      resetChainData E
  end.

(** [restartNode] *)
Definition restartNode (E : Env) : M (result (option chan)) :=
  do prevConfig <- getConfig;
  do r <- stopNode;
  match r with
  | Err err => ret (Err err)
  | Ok nodeStopped =>
      exec await E (Some nodeStopped);
      match prevConfig with
      | None => panic
      | Some prevConfig => startNode E prevConfig
      end
  end.

(** [RestartNode] *)
Definition RestartNode (E : Env) : M (result (option chan)) :=
  do err <- isNodeAvailable;
  match err with
  | Some err => ret (Err err)
  | None =>
      exec readNodeStarted;
      restartNode E
  end.

(** ** Accessors

    A result [( *T, error )] is [Ok p] with [p] the pointer returned,
    which may be nil ([None]), or [Err e]. *)

(** [Node] *)
Definition Node : M (result (option GethNode)) :=
  do err <- isNodeAvailable;
  match err with
  | Some err => ret (Err err)
  | None =>
      exec readNodeStarted;
      do n <- getNode;
      ret (Ok n)
  end.

(** [NodeConfig] *)
Definition NodeConfig : M (result (option Params.NodeConfig)) :=
  do err <- isNodeAvailable;
  match err with
  | Some err => ret (Err err)
  | None =>
      exec readNodeStarted;
      do m <- get_mgr;
      ret (Ok (config m))
  end.

(** [LightEthereumService]: [m.node.Service(&les)] fills the local
    [les], the field [m.lesService] is read afterwards. *)
Definition LightEthereumService : M (result (option LightEthereum)) :=
  do err <- isNodeAvailable;
  match err with
  | Some err => ret (Err err)
  | None =>
      exec readNodeStarted;
      do isNil <- lesServiceIsNil;
      do failed <-
        (if isNil then
           do _les <- getLesService;
           do m <- get_mgr;
           match node m with
           | None => panic
           | Some n =>
               ret (match node_Service_les n with Some _ => true | None => false end)
           end
         else ret false);
      if failed then ret (Err ErrInvalidLightEthereumService)
      else
        do isNil' <- lesServiceIsNil;
        if isNil' then ret (Err ErrInvalidLightEthereumService)
        else
          do m <- get_mgr;
          ret (Ok (lesService m))
  end.

(** [WhisperService] *)
Definition WhisperService : M (result (option Whisper)) :=
  do err <- isNodeAvailable;
  match err with
  | Some err => ret (Err err)
  | None =>
      exec readNodeStarted;
      do isNil <- whisperServiceIsNil;
      do failed <-
        (if isNil then
           do _whisperService <- getWhisperService;
           do m <- get_mgr;
           match node m with
           | None => panic
           | Some n =>
               ret (match node_Service_whisper n with Some _ => true | None => false end)
           end
         else ret false);
      if failed then ret (Err ErrInvalidWhisperService)
      else
        do shh <- getWhisperService;
        match shh with
        | None => ret (Err ErrInvalidWhisperService)
        | Some _ =>
            do m <- get_mgr;
            ret (Ok (whisperService m))
        end
  end.

(** [AccountManager] *)
Definition AccountManager : M (result (option accounts_Manager)) :=
  do err <- isNodeAvailable;
  match err with
  | Some err => ret (Err err)
  | None =>
      exec readNodeStarted;
      do m <- get_mgr;
      match node m with
      | None => panic
      | Some n =>
          match node_AccountManager n with
          | None => ret (Err ErrInvalidAccountManager)
          | Some accountManager => ret (Ok (Some accountManager))
          end
      end
  end.

(** [AccountKeyStore] *)
Definition AccountKeyStore : M (result (option KeyStore)) :=
  do err <- isNodeAvailable;
  match err with
  | Some err => ret (Err err)
  | None =>
      exec readNodeStarted;
      do m <- get_mgr;
      match node m with
      | None => panic
      | Some n =>
          match node_AccountManager n with
          | None => ret (Err ErrInvalidAccountManager)
          | Some accountManager =>
              match Backends accountManager with
              | [] => ret (Err ErrAccountKeyStoreMissing)
              | KeyStoreBackend keyStore :: _ => ret (Ok (Some keyStore))
              | OtherBackend :: _ => ret (Err ErrAccountKeyStoreMissing)
              end
          end
      end
  end.

(** [RPCClient]: one result, the client or nil. *)
Definition RPCClient : M (option Client) :=
  getRPCClient.

(** The observational accessors, and what a call of one gives: the
    error if there is one, and whether the pointer returned is nil. *)
Inductive Accessor :=
| AccNode
| AccNodeConfig
| AccLightEthereumService
| AccWhisperService
| AccAccountManager
| AccAccountKeyStore
| AccRPCClient.

Record Observed := {
  obs_err : option error;
  obs_nil : bool
}.

Definition observe {A} (r : result (option A)) : Observed :=
  match r with
  | Err e => {| obs_err := Some e; obs_nil := true |}
  | Ok None => {| obs_err := None; obs_nil := true |}
  | Ok (Some _) => {| obs_err := None; obs_nil := false |}
  end.

Definition call_accessor (a : Accessor) : M Observed :=
  match a with
  | AccNode => do r <- Node; ret (observe r)
  | AccNodeConfig => do r <- NodeConfig; ret (observe r)
  | AccLightEthereumService => do r <- LightEthereumService; ret (observe r)
  | AccWhisperService => do r <- WhisperService; ret (observe r)
  | AccAccountManager => do r <- AccountManager; ret (observe r)
  | AccAccountKeyStore => do r <- AccountKeyStore; ret (observe r)
  | AccRPCClient => do c <- RPCClient; ret (observe (Ok c))
  end.

(** ** Notions used to state the properties *)

(** A state in which [startNode] goes ahead: no node, no started
    channel; no other goroutine is around. *)
Definition idle (s : State) : Prop :=
  node (mgr s) = None /\ nodeStarted (mgr s) = None /\ pending (world s) = [].

(** A node that runs: configuration, node and both channels are set,
    the started channel is closed, the stopped channel is open, the
    stack is up, and what is left of the start goroutine waits in
    [m.node.Wait()], with peers goroutines possibly still queued. *)
Definition running (s : State) (n : GethNode) (conf : Params.NodeConfig) : Prop :=
  exists started stopped k,
    config (mgr s) = Some conf /\
    node (mgr s) = Some n /\
    nodeStarted (mgr s) = Some started /\
    nodeStopped (mgr s) = Some stopped /\
    chans (world s) !! started = Some true /\
    chans (world s) !! stopped = Some false /\
    node_id n ∈ alive (world s) /\
    pending (world s) = GoNodeWait :: replicate k GoPopulateStaticPeers.

(** What a guarded accessor gives when there is no running node. *)
Definition no_running_node : Observed :=
  {| obs_err := Some ErrNoRunningNode; obs_nil := true |}.

Definition stopped_signal : Envelope :=
  {| Type_ := EventNodeStopped; Event_ := Empty |}.
Definition removed_signal : Envelope :=
  {| Type_ := EventChainDataRemoved; Event_ := Empty |}.

(** [discover.ParseNode] accepts the URL. *)
Definition parses (E : Env) (url : string) : bool :=
  match ParseNode E url with
  | None => true
  | Some _ => false
  end.

(** From [s] to [s'] nothing of the past was undone: the signals sent
    are still there, in order, with new ones after them; the channels
    made are still there and the closed ones are still closed; the
    static peers added are still there; and no path has appeared on
    disk. *)
Definition history (s s' : State) : Prop :=
  (exists sent, signals (world s') = signals (world s) ++ sent) /\
  (exists made, length (chans (world s')) = (length (chans (world s)) + made)%nat) /\
  (forall c, chan_closed c (world s) = true -> chan_closed c (world s') = true) /\
  (exists added, peers (world s') = peers (world s) ++ added) /\
  (forall p, p ∈ fs (world s') -> p ∈ fs (world s)).

(** A computation keeps the history however it ends. *)
Definition keeps {A} (c : M A) : Prop :=
  forall s,
    match c s with
    | Ret _ s' => history s s'
    | Block s' => history s s'
    | Panic s' => history s s'
    end.

End Node.

(* ================================================================== *)
(** * package jail: ExecutionPolicy *)
(* ================================================================== *)
Module Jail.

(** ** Values of the otto VM *)

(** What the code puts into a response object. *)
#[local] Unset Elimination Schemes.
Inductive Value :=
| Null                                     (* otto.NullValue() *)
| Bool (b : bool)
| Number (n : Z)
| Str (s : string)
| Raw (msg : option string)                (* a Go json.RawMessage, set as it is *)
| Obj (fields : list (string * Value)).
#[local] Set Elimination Schemes.

(** An [*otto.Object]: its properties in insertion order. *)
Definition Object := list (string * Value).

(** [obj.Set(name, v)]: an existing property is overwritten in place, a
    new one is added last. *)
Fixpoint Set_ (name : string) (v : Value) (obj : Object) : Object :=
  match obj with
  | [] => [(name, v)]
  | (k, x) :: rest =>
      if String.eqb k name then (k, v) :: rest
      else (k, x) :: Set_ name v rest
  end.

Fixpoint Get (name : string) (obj : Object) : option Value :=
  match obj with
  | [] => None
  | (k, x) :: rest => if String.eqb k name then Some x else Get name rest
  end.

(** The source text [({"jsonrpc":"2.0"})] and the object it denotes. *)
Definition jsonrpc_source : string :=
  "({" +:+ dq +:+ "jsonrpc" +:+ dq +:+ ":" +:+ dq +:+ "2.0" +:+ dq +:+ "})".

Definition jsonrpc_object : Object := [("jsonrpc", Str "2.0")].

(** ** JSON text of a value, as [JSON.stringify] writes it without
    indentation.  Strings that would need an escape and raw Go bytes
    are not rendered ([None]). *)
Definition plain_char (c : Ascii.ascii) : bool :=
  let n := Ascii.nat_of_ascii c in
  (32 <=? n)%nat && negb (n =? 34)%nat && negb (n =? 92)%nat && (n <? 127)%nat.

Fixpoint plain_string (s : string) : bool :=
  match s with
  | EmptyString => true
  | String c rest => plain_char c && plain_string rest
  end.

Definition quote (s : string) : option string :=
  if plain_string s then Some (dq +:+ s +:+ dq) else None.

Fixpoint stringify (v : Value) : option string :=
  match v with
  | Null => Some "null"
  | Bool true => Some "true"
  | Bool false => Some "false"
  | Number n => Some (NilZero.string_of_int (Z.to_int n))
  | Str s => quote s
  | Raw _ => None
  | Obj fields =>
      let fix members (l : list (string * Value)) : option (list string) :=
        match l with
        | [] => Some []
        | (k, x) :: rest =>
            match quote k, stringify x, members rest with
            | Some k', Some x', Some rest' => Some ((k' +:+ ":" +:+ x') :: rest')
            | _, _, _ => None
            end
        end in
      match members fields with
      | Some ms => Some ("{" +:+ String.concat "," ms +:+ "}")
      | None => None
      end
  end.

(** ** go-ethereum values *)

Definition Address := string.
Definition Hash := string.
Definition RawMessage := string.

Record PrivateKey := { key_material : string }.

(** [common.SelectedExtKey], down to [AccountKey.PrivateKey]. *)
Record SelectedExtKey := { AccountKey_PrivateKey : PrivateKey }.

(** [types.NewEIP155Signer(chainID)] *)
Record Signer := { chainId : Z }.
Definition NewEIP155Signer (chainID : Z) : Signer := {| chainId := chainID |}.

(** A [*types.Transaction]: what [types.NewTransaction] is given (a
    [*big.Int] may be nil), and the signature once it has one. *)
Record Transaction := {
  tx_nonce : Z;
  tx_to : Address;
  tx_amount : option Z;
  tx_gasLimit : option Z;
  tx_gasPrice : option Z;
  tx_data : string;
  tx_signed : option (Signer * PrivateKey)
}.

Definition NewTransaction (nonce : Z) (to : Address)
    (amount gasLimit gasPrice : option Z) (data : string) : Transaction :=
  {| tx_nonce := nonce; tx_to := to; tx_amount := amount;
     tx_gasLimit := gasLimit; tx_gasPrice := gasPrice; tx_data := data;
     tx_signed := None |}.

(** [int64(x)] of a 64-bit integer: the value modulo [2^64], read as
    signed. *)
Definition int64 (x : Z) : Z := (x + 2 ^ 63) mod 2 ^ 64 - 2 ^ 63.

(** [big.NewInt] *)
Definition big_NewInt (x : Z) : Z := x.

(** [time.Duration] counts nanoseconds. *)
Definition time_Second : Z := 1000000000.
Definition time_Minute : Z := 60 * time_Second.

(** ** Requests *)

(** [common.RPCCall] *)
Record RPCCall := {
  ID : Value;
  Method : string;
  Params : list Value
}.

(** An argument of a call on the RPC client. *)
Inductive Arg :=
| ArgAddress (a : Address)
| ArgString (s : string)
| ArgValue (v : Value).

(** What the execution of a request does to its surroundings, in order:
    calls on the RPC client (with how far ahead the context's deadline
    lies, when there is a context), the pre- and post-processing of the
    request in the VM, and the hand-over to the transaction queue. *)
Inductive Event :=
| EvCallContext (deadline : Z) (method : string) (args : list Arg)
| EvCall (method : string) (args : list Arg)
| EvPreProcess (req : RPCCall)
| EvPostProcess (req : RPCCall) (messageID : string)
| EvProcessRPCCall (req : RPCCall).

(** ** The collaborators *)

(** The RPC client: its answer to a call, given what happened before,
    decoded into a [hexutil.Uint] or kept as a [json.RawMessage] (nil
    for an empty one). *)
Record Client := {
  answer_Uint : list Event -> string -> list Arg -> result Z;
  answer_Raw : list Event -> string -> list Arg -> result (option RawMessage)
}.

(** [common.NodeManager], the two methods used. *)
Record NodeManager := {
  NodeConfig : result Params.NodeConfig;
  RPCClient : result Client
}.

(** [common.AccountManager] *)
Record AccountManager := {
  SelectedAccount : result SelectedExtKey
}.

(** The VM of an [otto.FunctionCall]: [call.Otto.Object(source)] and
    the [parse] method of its [JSON] object. *)
Record Otto := {
  Otto_Object : string -> result Object;
  JSON_parse : string -> result Value
}.

Record FunctionCall := { call_Otto : Otto }.

(** Functions of the package's other files and of go-ethereum. *)
Record Env := {
  ParseFromAddress : RPCCall -> result Address;
  ParseToAddress : RPCCall -> result Address;
  ParseGas : RPCCall -> option Z;
  ParseGasPrice : RPCCall -> option Z;
  ParseValue : RPCCall -> option Z;
  ParseData : RPCCall -> string;
  SignTx : Transaction -> Signer -> PrivateKey -> result Transaction;
  rlp_EncodeToBytes : Transaction -> result string;
  ToHex : string -> string;
  tx_Hash : Transaction -> Hash;
  processRPCCall :
    NodeManager -> RPCCall -> FunctionCall -> list Event -> Hash * option error;
  preProcessRequest : Otto -> RPCCall -> list Event -> result string
}.

(** ** Running the code: a call returns or panics, and leaves its
    events behind *)
Inductive Out (A : Type) : Type :=
| Done (a : A) (t : list Event)
| Panicked (t : list Event).
Arguments Done {A} a t.
Arguments Panicked {A} t.

Definition M (A : Type) : Type := list Event -> Out A.

Definition ret {A} (a : A) : M A := fun t => Done a t.

Definition bind {A B} (c : M A) (k : A -> M B) : M B :=
  fun t =>
    match c t with
    | Done a t' => k a t'
    | Panicked t' => Panicked t'
    end.

Definition panic {A} : M A := fun t => Panicked t.

Notation "'do' x <- c ; k" := (bind c (fun x => k))
  (at level 10, x name, c at level 100, k at level 200).
Notation "'exec' c ; k" := (bind c (fun _ => k))
  (at level 10, c at level 100, k at level 200).

(** [client.CallContext(ctx, &num, method, args...)] with [num] a
    [hexutil.Uint], under a context whose deadline is [deadline] ahead. *)
Definition CallContext_Uint (client : Client) (deadline : Z)
    (method : string) (args : list Arg) : M (result Z) :=
  fun t => Done (answer_Uint client t method args)
                (t ++ [EvCallContext deadline method args]).

(** The same with a [json.RawMessage] result. *)
Definition CallContext_Raw (client : Client) (deadline : Z)
    (method : string) (args : list Arg) : M (result (option RawMessage)) :=
  fun t => Done (answer_Raw client t method args)
                (t ++ [EvCallContext deadline method args]).

(** [client.Call(&result, method, args...)] *)
Definition Call_Raw (client : Client) (method : string) (args : list Arg)
  : M (result (option RawMessage)) :=
  fun t => Done (answer_Raw client t method args) (t ++ [EvCall method args]).

(** [obj.Set(name, v)] through a pointer that may be nil. *)
Definition Object_Set (resp : option Object) (name : string) (v : Value)
  : M (option Object) :=
  match resp with
  | None => panic
  | Some obj => ret (Some (Set_ name v obj))
  end.

(** [v.Object()] *)
Definition Value_Object (v : Value) : option Object :=
  match v with
  | Obj fields => Some fields
  | _ => None
  end.

(** Modelled from the spec: [newErrorResponse], a helper of package jail
    that is not among the sources.  The spec has the error responses as
    JSON-RPC 2.0 responses with an error object [{code, message}] and
    the request's id. *)
Definition newErrorResponse (call : FunctionCall) (code : Z) (msg : string)
    (id : Value) : Value :=
  Obj [("jsonrpc", Str "2.0"); ("id", id);
       ("error", Obj [("code", Number code); ("message", Str msg)])].

(** ** ExecutionPolicy *)

(** [ExecuteRemoteSendTransaction] *)
Definition ExecuteRemoteSendTransaction (E : Env) (manager : NodeManager)
    (account : AccountManager) (req : RPCCall) (call : FunctionCall)
  : M (result (option Object)) :=
  match NodeConfig manager with
  | Err err => ret (Err err)
  | Ok config =>
  match SelectedAccount account with
  | Err err => ret (Err err)
  | Ok selectedAcct =>
  match RPCClient manager with
  | Err err => ret (Err err)
  | Ok client =>
  match ParseFromAddress E req with
  | Err err => ret (Err err)
  | Ok fromAddr =>
  match ParseToAddress E req with
  | Err err => ret (Err err)
  | Ok toAddr =>
      do r <- CallContext_Uint client (1 * time_Minute)
                "eth_getTransactionCount" [ArgAddress fromAddr; ArgString "latest"];
      match r with
      | Err err => ret (Err err)
      | Ok num =>
          let nonce := num in
          let gas := ParseGas E req in
          let dataVal := ParseData E req in
          let priceVal := ParseValue E req in
          let gasPrice := ParseGasPrice E req in
          let chainID := big_NewInt (int64 (Params.NetworkID config)) in
          let tx := NewTransaction nonce toAddr priceVal gas gasPrice dataVal in
          match SignTx E tx (NewEIP155Signer chainID)
                  (AccountKey_PrivateKey selectedAcct) with
          | Err err => ret (Err err)
          | Ok txs =>
              match rlp_EncodeToBytes E txs with
              | Err err => ret (Err err)
              | Ok txBytes =>
                  do r2 <- CallContext_Raw client (1 * time_Minute)
                             "eth_sendRawTransaction" [ArgString (ToHex E txBytes)];
                  match r2 with
                  | Err err => ret (Err err)
                  | Ok result =>
                      match Otto_Object (call_Otto call) jsonrpc_source with
                      | Err err => ret (Err err)
                      | Ok resp =>
                          do resp <- Object_Set (Some resp) "id" (ID req);
                          do resp <- Object_Set resp "result" (Raw result);
                          do resp <- Object_Set resp "hash" (Str (tx_Hash E txs));
                          ret (Ok resp)
                      end
                  end
              end
          end
      end
  end end end end end.

(** [ExecuteLocalSendTransaction] *)
Definition ExecuteLocalSendTransaction (E : Env) (manager : NodeManager)
    (req : RPCCall) (call : FunctionCall) : M (result (option Object)) :=
  match Otto_Object (call_Otto call) jsonrpc_source with
  | Err err => ret (Err err)
  | Ok resp =>
      do resp <- Object_Set (Some resp) "id" (ID req);
      do r <- (fun t => Done (processRPCCall E manager req call t)
                             (t ++ [EvProcessRPCCall req]));
      let '(txHash, err) := r in
      do resp <- Object_Set resp "result" (Str txHash);
      match err with
      | Some err =>
          ret (Ok (Value_Object
                     (newErrorResponse call (-32603) (Error err) (ID req))))
      | None => ret (Ok resp)
      end
  end.

(** [ExecuteSendTransaction] *)
Definition ExecuteSendTransaction (E : Env) (manager : NodeManager)
    (account : AccountManager) (req : RPCCall) (call : FunctionCall)
  : M (result (option Object)) :=
  match NodeConfig manager with
  | Err err => ret (Err err)
  | Ok config =>
      if Params.Enabled (Params.UpstreamConfig config)
      then ExecuteRemoteSendTransaction E manager account req call
      else ExecuteLocalSendTransaction E manager req call
  end.

(** [ExecuteOtherTransaction] *)
Definition ExecuteOtherTransaction (E : Env) (manager : NodeManager)
    (req : RPCCall) (call : FunctionCall) : M (result (option Object)) :=
  match RPCClient manager with
  | Err err => ret (Err (StopRPCCallError err))
  | Ok client =>
  match Otto_Object (call_Otto call) "JSON" with
  | Err err => ret (Err err)
  | Ok _JSON =>
      let resp :=
        match Otto_Object (call_Otto call) jsonrpc_source with
        | Ok resp => Some resp
        | Err _ => None
        end in
      do resp <- Object_Set resp "id" (ID req);
      do pre <- (fun t => Done (preProcessRequest E (call_Otto call) req t)
                               (t ++ [EvPreProcess req]));
      match pre with
      | Err err => ret (Err (StopRPCCallError err))
      | Ok messageID =>
          do r <- Call_Raw client (Method req) (map ArgValue (Params req));
          do resp <-
            match r with
            | Ok None => Object_Set resp "result" Null
            | Ok (Some result) =>
                match JSON_parse (call_Otto call) result with
                | Err callErr =>
                    ret (Value_Object
                           (newErrorResponse call (-32603) (Error callErr) (ID req)))
                | Ok resultVal => Object_Set resp "result" resultVal
                end
            | Err (rpc_Error code msg) =>
                Object_Set resp "error"
                    (Obj [("code", Number code); ("message", Str msg)])
            | Err err =>
                ret (Value_Object
                       (newErrorResponse call (-32603) (Error err) (ID req)))
            end;
          exec (fun t => Done tt (t ++ [EvPostProcess req messageID]));
          ret (Ok resp)
      end
  end end.

(** ** Notions used to state the properties *)

(** The events a run leaves. *)
Definition trace_of {A} (o : Out A) : list Event :=
  match o with
  | Done _ t => t
  | Panicked t => t
  end.

(** The code of the error object for a failed pass-through call: the
    error's own code when it has one, -32603 otherwise. *)
Definition error_code (err : error) : Z :=
  match err with
  | rpc_Error code _ => code
  | _ => -32603
  end.

(** The JSON text [{"jsonrpc":"2.0","id":N,"result":null}]. *)
Definition null_result_text (N : Z) : string :=
  "{" +:+ dq +:+ "jsonrpc" +:+ dq +:+ ":" +:+ dq +:+ "2.0" +:+ dq +:+ ","
  +:+ dq +:+ "id" +:+ dq +:+ ":" +:+ NilZero.string_of_int (Z.to_int N) +:+ ","
  +:+ dq +:+ "result" +:+ dq +:+ ":null}".

End Jail.

(* ================================================================== *)
(** * package common: MockNotifier *)
(* ================================================================== *)
Module Mock.

(** A Go value held in an [interface{}], as far as the mock tells
    values apart: a string, an error, the nil interface, anything
    else. *)
Inductive any :=
| AnyString (s : string)
| AnyError (e : error)
| AnyNil
| AnyOther (tag : nat).

(** What a [*gomock.Controller] has seen: the calls made through
    [Call] and the expectations recorded through
    [RecordCallWithMethodType], each with the method name and the
    arguments, oldest first. *)
Record Controller := {
  calls : list (string * list any);
  expected : list (string * list any)
}.

(** A run of the mock returns or panics. *)
Inductive Res (A : Type) : Type :=
| Ret (a : A) (ctrl : Controller)
| Panic (ctrl : Controller).
Arguments Ret {A} a ctrl.
Arguments Panic {A} ctrl.

(** [ctrl.Call(m, method, args...)]: the call is noted; [returns] are
    the values the controller answers with. *)
Definition ctrl_Call (returns : string -> list any -> list any)
    (method : string) (args : list any) (ctrl : Controller)
  : list any * Controller :=
  (returns method args,
   {| calls := calls ctrl ++ [(method, args)]; expected := expected ctrl |}).

(** [ctrl.RecordCallWithMethodType(m, method, methodType, args...)] *)
Definition ctrl_RecordCall (method : string) (args : list any)
    (ctrl : Controller) : Controller :=
  {| calls := calls ctrl; expected := expected ctrl ++ [(method, args)] |}.

(** The loop [for _, a := range tokens { varargs = append(varargs, a) }] *)
Fixpoint append_tokens (varargs : list any) (tokens : list string) : list any :=
  match tokens with
  | [] => varargs
  | a :: rest => append_tokens (varargs ++ [AnyString a]) rest
  end.

(** [func (m *MockNotifier) Notify(body interface{}, tokens ...string) error]:
    [ret[0]] panics on an empty [ret]; [ret0, _ := ret[0].(error)] is
    the error if the value is one and nil otherwise. *)
Definition Notify (returns : string -> list any -> list any)
    (body : any) (tokens : list string) (ctrl : Controller)
  : Res (option error) :=
  let varargs := append_tokens [body] tokens in
  let '(ret, ctrl') := ctrl_Call returns "Notify" varargs ctrl in
  match ret with
  | [] => Panic ctrl'
  | AnyError e :: _ => Ret (Some e) ctrl'
  | _ :: _ => Ret None ctrl'
  end.

(** [func (mr *MockNotifierMockRecorder) Notify(body interface{}, tokens ...interface{}) *gomock.Call] *)
Definition Recorder_Notify (body : any) (tokens : list any)
    (ctrl : Controller) : Controller :=
  let varargs := [body] ++ tokens in
  ctrl_RecordCall "Notify" varargs ctrl.

(** The controller after a run. *)
Definition ctrl_of {A} (r : Res A) : Controller :=
  match r with
  | Ret _ ctrl => ctrl
  | Panic ctrl => ctrl
  end.

End Mock.

(* ================================================================== *)
(** * Sample runs: a configuration, a node, the collaborators' answers *)
(* ================================================================== *)
Module Sample.

(** ** For the node manager *)
Module N.
Import Params Signal Node.

Definition config : Params.NodeConfig :=
  {| NetworkID := 3; DataDir := "/data"; Name := "StatusIM";
     LogLevel := "INFO"; LogFile := "";
     UpstreamConfig := {| Enabled := false; URL := "" |};
     BootCluster := {| BootEnabled := true; BootNodes := ["enode://a"; "bad"] |} |}.

Definition ethNode (id : nat) (startErr : option error) : GethNode :=
  {| node_id := id; node_Start := startErr; node_Stop := None;
     node_AccountManager :=
       Some {| Backends := [KeyStoreBackend {| ks_id := 0 |}] |};
     node_Service_les := None; node_Service_whisper := None |}.

(** The node starts unless [startErr] says otherwise; the RPC client is
    built when [rpcOk]. *)
Definition env (startErr : option error) (rpcOk : bool) : Env :=
  {| MakeNode := fun _ => Ok (ethNode 1 startErr);
     NewClient := fun _ _ =>
       if rpcOk then Ok {| client_id := 7 |}
       else Err (errors_New "dial unix geth.ipc: no such file");
     ParseNode := fun url =>
       if String.eqb url "bad" then Some (errors_New "invalid URL scheme")
       else None;
     RemoveAll_error := fun _ => None;
     filepath_Join := String.concat "/";
     ErrNodeStartFailure := errors_New "error starting p2p node" |}.

Definition chainData : string := "/data/StatusIM/lightchaindata".

(** A fresh manager; the chain data directory exists when [withData]. *)
Definition init (withData : bool) : State :=
  {| mgr := NewNodeManager;
     world :=
       {| chans := []; alive := []; peers := []; signals := [];
          fs := (if withData then [chainData; chainData +:+ "/CURRENT"] else [])
                ++ ["/data/StatusIM/keystore"];
          pending := [] |} |}.

(** [StartNode], then wait on the channel it returns. *)
Definition start_and_wait (E : Env) : M (result (option chan)) :=
  do r <- StartNode E config;
  match r with
  | Ok started => exec await E started; ret r
  | Err _ => ret r
  end.

(** [StopNode], then wait on the channel it returns. *)
Definition stop_and_wait (E : Env) : M (result chan) :=
  do r <- StopNode;
  match r with
  | Ok stopped => exec await E (Some stopped); ret r
  | Err _ => ret r
  end.

(** The state a run leaves, whatever way it ends. *)
Definition state_of {A} (r : Res A) : State :=
  match r with
  | Ret _ s => s
  | Block s => s
  | Panic s => s
  end.

(** [StartNode] has returned, its goroutine has not run yet. *)
Definition starting_state : State :=
  state_of (StartNode (env None true) config (init true)).

(** The node runs. *)
Definition running_state (withData : bool) : State :=
  state_of (start_and_wait (env None true) (init withData)).

(** [StopNode] has returned and the start goroutine has seen the stack
    go down; the stop goroutine has not run yet. *)
Definition stopping_state : State :=
  state_of ((do _r <- start_and_wait (env None true);
             do _r <- StopNode;
             run_task (env None true) GoNodeWait) (init true)).

(** The node was started and stopped, and both waits are over. *)
Definition stopped_state : State :=
  state_of ((do _r <- start_and_wait (env None true);
             stop_and_wait (env None true)) (init true)).

(** The node started and the RPC client could not be built. *)
Definition rpc_failed_state : State :=
  state_of (start_and_wait (env None false) (init true)).

(** As [env None true], with an [os.RemoveAll] that is refused. *)
Definition env_readonly : Env :=
  {| MakeNode := MakeNode (env None true);
     NewClient := NewClient (env None true);
     ParseNode := ParseNode (env None true);
     RemoveAll_error := fun _ => Some (errors_New "unlinkat: permission denied");
     filepath_Join := String.concat "/";
     ErrNodeStartFailure := ErrNodeStartFailure (env None true) |}.

End N.

(** ** For the execution policy *)
Module J.
Import Params Jail.

Definition config (upstream : bool) : Params.NodeConfig :=
  {| NetworkID := 3; DataDir := "/data"; Name := "StatusIM";
     LogLevel := "INFO"; LogFile := "";
     UpstreamConfig := {| Enabled := upstream; URL := "https://ropsten.example/rpc" |};
     BootCluster := {| BootEnabled := false; BootNodes := [] |} |}.

(** A client that knows one nonce and answers every other call with
    [other]. *)
Definition client (other : result (option RawMessage)) : Client :=
  {| answer_Uint := fun _ _ _ => Ok 5;
     answer_Raw := fun _ method _ =>
       if String.eqb method "eth_sendRawTransaction"
       then Ok (Some "0xabc")
       else other |}.

Definition manager (upstream : bool) (other : result (option RawMessage))
  : NodeManager :=
  {| NodeConfig := Ok (config upstream); RPCClient := Ok (client other) |}.

Definition account : AccountManager :=
  {| SelectedAccount :=
       Ok {| AccountKey_PrivateKey := {| key_material := "k1" |} |} |}.

Definition call : FunctionCall :=
  {| call_Otto :=
       {| Otto_Object := fun source =>
            if String.eqb source jsonrpc_source then Ok jsonrpc_object
            else Ok [];
          JSON_parse := fun text => Ok (Str text) |} |}.

(** The queue completes the transaction when [queueErr] is [None]. *)
Definition env (queueErr : option error) : Env :=
  {| ParseFromAddress := fun _ => Ok "0xf00";
     ParseToAddress := fun _ => Ok "0xbaa";
     ParseGas := fun _ => Some 21000;
     ParseGasPrice := fun _ => Some 1;
     ParseValue := fun _ => Some 1000;
     ParseData := fun _ => "";
     SignTx := fun tx signer key =>
       Ok {| tx_nonce := tx_nonce tx; tx_to := tx_to tx;
             tx_amount := tx_amount tx; tx_gasLimit := tx_gasLimit tx;
             tx_gasPrice := tx_gasPrice tx; tx_data := tx_data tx;
             tx_signed := Some (signer, key) |};
     rlp_EncodeToBytes := fun tx => Ok ("rlp:" +:+ tx_to tx);
     ToHex := fun bytes => "0x" +:+ bytes;
     tx_Hash := fun tx => "0xhash:" +:+ tx_to tx;
     processRPCCall := fun _ _ _ _ =>
       match queueErr with
       | None => ("0xdone", None)
       | Some err => ("0x0000", Some err)
       end;
     preProcessRequest := fun _ _ _ => Ok "msg-1" |}.

Definition sendTransaction : RPCCall :=
  {| ID := Number 1; Method := "eth_sendTransaction";
     Params := [Obj [("from", Str "0xf00"); ("to", Str "0xbaa")]] |}.

Definition getTransactionReceipt (id : Z) : RPCCall :=
  {| ID := Number id; Method := "eth_getTransactionReceipt";
     Params := [Str "0xbbebf28d0a3a3cbb38e6053a5b21f08f82c62b0c145a17b1c4313cac3f68ae7c"] |}.

End J.

End Sample.

(* ================================================================== *)
(** * Properties of package message *)
(* ================================================================== *)
Module MessageFacts.
Import Message.

Lemma declared_range (s : Status) :
  s ∈ declared_statuses <-> 0 <= s <= 12.
Proof.
  unfold declared_statuses. rewrite !elem_of_cons, elem_of_nil.
  unfold PendingStatus, QueuedStatus, CachedStatus, SentStatus,
    ExpiredStatus, ResendStatus, FutureStatus, LowPowStatus,
    InvalidAESStatus, OversizedMessageStatus, OversizedVersionStatus,
    RejectedStatus, DeliveredStatus.
  lia.
Qed.

Lemma String_outside (s : Status) :
  s ∉ declared_statuses -> String s = "unknown".
Proof.
  rewrite declared_range. intros H. unfold String.
  repeat match goal with
         | |- context [?a =? ?b] =>
             destruct (Z.eqb_spec a b) as [->|_];
             [exfalso; apply H; vm_compute; split; discriminate|]
         end.
  reflexivity.
Qed.

Ltac each_declared H :=
  apply declared_range in H;
  match type of H with
  | 0 <= ?s <= 12 =>
      assert (s = 0 \/ s = 1 \/ s = 2 \/ s = 3 \/ s = 4 \/ s = 5 \/ s = 6 \/
              s = 7 \/ s = 8 \/ s = 9 \/ s = 10 \/ s = 11 \/ s = 12) as H'
        by lia;
      clear H; decompose [or] H'; clear H'; subst s
  end.

(** C10.  [String] is a total function on [Status]: it gives "unknown"
    for every value that is not a declared constant and also for the
    declared constant [CachedStatus]; every other declared constant has
    a name other than "unknown", and no two of them share a name. *)
Theorem Status_String_names :
  (forall s : Status, s ∉ declared_statuses -> String s = "unknown") /\
  String CachedStatus = "unknown" /\
  (forall s : Status,
      s ∈ declared_statuses -> s <> CachedStatus -> String s <> "unknown") /\
  (forall s s' : Status,
      s ∈ declared_statuses -> s' ∈ declared_statuses ->
      s <> CachedStatus -> s' <> CachedStatus ->
      String s = String s' -> s = s').
Proof.
  split; [exact String_outside|].
  split; [reflexivity|].
  split.
  - intros s H Hc. each_declared H; vm_compute; solve [discriminate | contradiction].
  - intros s s' H1 H2 Hc Hc' Heq.
    each_declared H1; each_declared H2;
      solve [reflexivity | vm_compute in Heq; discriminate
            | exfalso; apply Hc; reflexivity | exfalso; apply Hc'; reflexivity].
Qed.

(** The theorem at [SentStatus], [DeliveredStatus] and at 13, the first
    value past the declared ones. *)
Lemma Status_String_names_witness :
  String SentStatus <> "unknown" /\
  String SentStatus <> String DeliveredStatus /\
  String 13 = "unknown".
Proof.
  destruct Status_String_names as (Hout & _ & Hin & Hinj).
  split; [|split].
  - apply Hin; [apply declared_range; unfold SentStatus; lia|discriminate].
  - intros Heq. apply Hinj in Heq; try discriminate;
      apply declared_range; vm_compute; split; discriminate.
  - apply Hout. rewrite declared_range. lia.
Defined.

End MessageFacts.

(* ================================================================== *)
(** * Properties of package jail *)
(* ================================================================== *)
Module JailFacts.
Import Params Jail.

Ltac split_events H :=
  rewrite ?elem_of_app, ?elem_of_cons, ?elem_of_nil in H;
  repeat match type of H with _ \/ _ => destruct H as [H|H] end.

Ltac case_results :=
  repeat match goal with
         | |- context [match ?x with _ => _ end] => destruct x eqn:?; cbn
         end.

(** The remote path talks to the RPC client and to nothing else. *)
Lemma Remote_events E manager account req call t ev :
  ev ∈ trace_of (ExecuteRemoteSendTransaction E manager account req call t) ->
  ev ∈ t \/ exists d m a, ev = EvCallContext d m a.
Proof.
  unfold ExecuteRemoteSendTransaction. case_results.
  all: intros Hin; split_events Hin; subst; eauto 10; contradiction.
Qed.

(** The local path hands the request to the queue and does nothing
    else. *)
Lemma Local_events E manager req call t ev :
  ev ∈ trace_of (ExecuteLocalSendTransaction E manager req call t) ->
  ev ∈ t \/ ev = EvProcessRPCCall req.
Proof.
  unfold ExecuteLocalSendTransaction. case_results.
  all: intros Hin; split_events Hin; subst; eauto 10; contradiction.
Qed.

Lemma int64_small x : - 2 ^ 63 <= x < 2 ^ 63 -> int64 x = x.
Proof. unfold int64. intros H. rewrite Z.mod_small; lia. Qed.

(** C3.  [ExecuteSendTransaction] returns the error of
    [manager.NodeConfig()] without an event when there is one;
    otherwise it is the remote send when [UpstreamConfig.Enabled] is
    set, and then every event it adds is a call on the RPC client, and
    it is the local send when the flag is not set, and then the only
    event it adds is the hand-over to the transaction queue. *)
Theorem ExecuteSendTransaction_dispatch E manager account req call t :
  match NodeConfig manager with
  | Err err =>
      ExecuteSendTransaction E manager account req call t = Done (Err err) t
  | Ok config =>
      if Enabled (UpstreamConfig config) then
        ExecuteSendTransaction E manager account req call t =
          ExecuteRemoteSendTransaction E manager account req call t /\
        (forall ev,
            ev ∈ trace_of (ExecuteSendTransaction E manager account req call t) ->
            ev ∈ t \/ exists d m a, ev = EvCallContext d m a)
      else
        ExecuteSendTransaction E manager account req call t =
          ExecuteLocalSendTransaction E manager req call t /\
        (forall ev,
            ev ∈ trace_of (ExecuteSendTransaction E manager account req call t) ->
            ev ∈ t \/ ev = EvProcessRPCCall req)
  end.
Proof.
  unfold ExecuteSendTransaction.
  destruct (NodeConfig manager) as [config|err]; [|reflexivity].
  destruct (Enabled (UpstreamConfig config)); (split; [reflexivity|]).
  - apply Remote_events.
  - apply Local_events.
Qed.



(** C5.  When the pass-through call of a request fails, the function
    returns a response and a nil error; the response has the request
    id and an [error] object whose [code] is the error's code if the
    error is an [rpc.Error] and -32603 if it is not, and whose
    [message] is the error's message. *)
Theorem ExecuteOtherTransaction_call_error E manager req call t
    client JSON messageID err :
  RPCClient manager = Ok client ->
  Otto_Object (call_Otto call) "JSON" = Ok JSON ->
  Otto_Object (call_Otto call) jsonrpc_source = Ok jsonrpc_object ->
  preProcessRequest E (call_Otto call) req t = Ok messageID ->
  answer_Raw client (t ++ [EvPreProcess req]) (Method req)
    (map ArgValue (Params req)) = Err err ->
  ExecuteOtherTransaction E manager req call t =
    Done (Ok (Some [("jsonrpc", Str "2.0"); ("id", ID req);
                    ("error", Obj [("code", Number (error_code err));
                                   ("message", Str (Error err))])]))
         (t ++ [EvPreProcess req;
                EvCall (Method req) (map ArgValue (Params req));
                EvPostProcess req messageID]).
Proof.
  intros Hcl HJ Ho Hpre Hcall.
  unfold ExecuteOtherTransaction.
  rewrite Hcl, HJ, Ho. cbn. rewrite Hpre. cbn.
  unfold bind at 1. unfold Call_Raw. rewrite Hcall.
  destruct err; cbn; rewrite <- !app_assoc; reflexivity.
Qed.

(** The sample client answering with a typed error, and with a plain
    one. *)
Lemma ExecuteOtherTransaction_call_error_witness :
  (exists t,
      ExecuteOtherTransaction (Sample.J.env None)
        (Sample.J.manager false (Err (rpc_Error (-32000) "header not found")))
        (Sample.J.getTransactionReceipt 7) Sample.J.call [] =
      Done (Ok (Some [("jsonrpc", Str "2.0"); ("id", Number 7);
                      ("error", Obj [("code", Number (-32000));
                                     ("message", Str "header not found")])])) t) /\
  (exists t,
      ExecuteOtherTransaction (Sample.J.env None)
        (Sample.J.manager false (Err (errors_New "connection refused")))
        (Sample.J.getTransactionReceipt 7) Sample.J.call [] =
      Done (Ok (Some [("jsonrpc", Str "2.0"); ("id", Number 7);
                      ("error", Obj [("code", Number (-32603));
                                     ("message", Str "connection refused")])])) t).
Proof.
  split; eexists.
  - apply (ExecuteOtherTransaction_call_error (Sample.J.env None)
             (Sample.J.manager false (Err (rpc_Error (-32000) "header not found")))
             (Sample.J.getTransactionReceipt 7) Sample.J.call []
             (Sample.J.client (Err (rpc_Error (-32000) "header not found")))
             [] "msg-1" (rpc_Error (-32000) "header not found"));
      reflexivity.
  - apply (ExecuteOtherTransaction_call_error (Sample.J.env None)
             (Sample.J.manager false (Err (errors_New "connection refused")))
             (Sample.J.getTransactionReceipt 7) Sample.J.call []
             (Sample.J.client (Err (errors_New "connection refused")))
             [] "msg-1" (errors_New "connection refused"));
      reflexivity.
Defined.

Lemma append_assoc (a b c : string) : (a +:+ b) +:+ c = a +:+ (b +:+ c).
Proof.
  induction a as [|x a IH]; [reflexivity|].
  change (String x ((a +:+ b) +:+ c) = String x (a +:+ (b +:+ c))).
  f_equal. exact IH.
Qed.

Lemma stringify_null_result (N : Z) :
  stringify (Obj [("jsonrpc", Str "2.0"); ("id", Number N); ("result", Null)])
  = Some (null_result_text N).
Proof.
  cbn. unfold null_result_text. f_equal. cbn.
  rewrite !append_assoc. reflexivity.
Qed.

(** C6.  When the pass-through call of a request succeeds with a nil
    raw message, the function returns a response whose properties are
    [jsonrpc], the request id, and [result] set to null, in this order
    and with nothing else; for a request with the number [N] as id its
    JSON text is [{"jsonrpc":"2.0","id":N,"result":null}]. *)
Theorem ExecuteOtherTransaction_null_result E manager req call t
    client JSON messageID :
  RPCClient manager = Ok client ->
  Otto_Object (call_Otto call) "JSON" = Ok JSON ->
  Otto_Object (call_Otto call) jsonrpc_source = Ok jsonrpc_object ->
  preProcessRequest E (call_Otto call) req t = Ok messageID ->
  answer_Raw client (t ++ [EvPreProcess req]) (Method req)
    (map ArgValue (Params req)) = Ok None ->
  exists resp,
    ExecuteOtherTransaction E manager req call t =
      Done (Ok (Some resp))
           (t ++ [EvPreProcess req;
                  EvCall (Method req) (map ArgValue (Params req));
                  EvPostProcess req messageID]) /\
    resp = [("jsonrpc", Str "2.0"); ("id", ID req); ("result", Null)] /\
    Get "result" resp = Some Null /\
    (forall N, ID req = Number N ->
               stringify (Obj resp) = Some (null_result_text N)).
Proof.
  intros Hcl HJ Ho Hpre Hcall.
  eexists. split; [|split; [reflexivity|split; [reflexivity|]]].
  - unfold ExecuteOtherTransaction.
    rewrite Hcl, HJ, Ho. cbn. rewrite Hpre. cbn.
    unfold bind at 1. unfold Call_Raw. rewrite Hcall.
    cbn. rewrite <- !app_assoc. reflexivity.
  - intros N ->. apply stringify_null_result.
Qed.

(** [eth_getTransactionReceipt] with id 7 on the sample client, which
    has no receipt for the hash. *)
Lemma ExecuteOtherTransaction_null_result_witness :
  exists resp t,
    ExecuteOtherTransaction (Sample.J.env None)
      (Sample.J.manager false (Ok None))
      (Sample.J.getTransactionReceipt 7) Sample.J.call [] =
    Done (Ok (Some resp)) t /\
    stringify (Obj resp) =
    Some ("{" +:+ dq +:+ "jsonrpc" +:+ dq +:+ ":" +:+ dq +:+ "2.0" +:+ dq
          +:+ "," +:+ dq +:+ "id" +:+ dq +:+ ":7," +:+ dq +:+ "result" +:+ dq
          +:+ ":null}").
Proof.
  destruct (ExecuteOtherTransaction_null_result (Sample.J.env None)
              (Sample.J.manager false (Ok None))
              (Sample.J.getTransactionReceipt 7) Sample.J.call []
              (Sample.J.client (Ok None)) [] "msg-1")
    as (resp & Hrun & _ & _ & Htext); try reflexivity.
  exists resp. eexists. split; [exact Hrun|].
  apply (Htext 7). reflexivity.
Defined.

(** C8.  On the local path the function returns a response and a nil
    error whatever the queue answers: when the queued transaction
    completes, the response has the request id and the transaction
    hash under [result]; when it fails (rejected, timed out), the
    response is an error response with the request id, code -32603 and
    the failure's message. *)
Theorem ExecuteLocalSendTransaction_response E manager req call t :
  Otto_Object (call_Otto call) jsonrpc_source = Ok jsonrpc_object ->
  ExecuteLocalSendTransaction E manager req call t =
    Done (Ok (Some
                match processRPCCall E manager req call t with
                | (txHash, None) =>
                    [("jsonrpc", Str "2.0"); ("id", ID req);
                     ("result", Str txHash)]
                | (_, Some err) =>
                    [("jsonrpc", Str "2.0"); ("id", ID req);
                     ("error", Obj [("code", Number (-32603));
                                    ("message", Str (Error err))])]
                end))
         (t ++ [EvProcessRPCCall req]).
Proof.
  intros Ho. unfold ExecuteLocalSendTransaction. rewrite Ho. cbn.
  unfold bind at 1.
  destruct (processRPCCall E manager req call t) as [txHash [err|]];
    reflexivity.
Qed.

(** The sample queue completing the transaction, and discarding it. *)
Lemma ExecuteLocalSendTransaction_response_witness :
  ExecuteLocalSendTransaction (Sample.J.env None)
    (Sample.J.manager false (Ok None)) Sample.J.sendTransaction
    Sample.J.call [] =
  Done (Ok (Some [("jsonrpc", Str "2.0"); ("id", Number 1);
                  ("result", Str "0xdone")]))
       [EvProcessRPCCall Sample.J.sendTransaction] /\
  ExecuteLocalSendTransaction
    (Sample.J.env (Some (errors_New "transaction has been discarded")))
    (Sample.J.manager false (Ok None)) Sample.J.sendTransaction
    Sample.J.call [] =
  Done (Ok (Some [("jsonrpc", Str "2.0"); ("id", Number 1);
                  ("error", Obj [("code", Number (-32603));
                                 ("message", Str "transaction has been discarded")])]))
       [EvProcessRPCCall Sample.J.sendTransaction].
Proof.
  split.
  - apply (ExecuteLocalSendTransaction_response (Sample.J.env None)
             (Sample.J.manager false (Ok None)) Sample.J.sendTransaction
             Sample.J.call []).
    reflexivity.
  - apply (ExecuteLocalSendTransaction_response
             (Sample.J.env (Some (errors_New "transaction has been discarded")))
             (Sample.J.manager false (Ok None)) Sample.J.sendTransaction
             Sample.J.call []).
    reflexivity.
Defined.

(** ** Further properties of the execution policy *)

Lemma Get_Set_eq name v obj : Get name (Set_ name v obj) = Some v.
Proof.
  induction obj as [|[k x] rest IH]; cbn.
  - by rewrite String.eqb_refl.
  - destruct (String.eqb k name) eqn:Hk; cbn; rewrite Hk; [reflexivity|exact IH].
Qed.

Lemma Get_Set_ne name name' v obj :
  name <> name' -> Get name' (Set_ name v obj) = Get name' obj.
Proof.
  intros Hne. induction obj as [|[k x] rest IH]; cbn.
  - destruct (String.eqb_spec name name'); [contradiction|reflexivity].
  - destruct (String.eqb_spec k name) as [->|Hk]; cbn.
    + destruct (String.eqb_spec name name'); [contradiction|reflexivity].
    + destruct (String.eqb k name'); [reflexivity|exact IH].
Qed.



(** X2.  The remote send returns a response only when the upstream
    accepted the submission: if the result is a response, both calls
    were made, [eth_sendRawTransaction] was answered without error, and
    the response carries the request id, that answer under [result]
    and a hash.  Every failure on the way comes back as the error
    itself, not as a response. *)
Theorem ExecuteRemoteSendTransaction_response_means_submitted
    E manager account req call t resp tr :
  ExecuteRemoteSendTransaction E manager account req call t = Done (Ok resp) tr ->
  exists client fromAddr hex result obj,
    RPCClient manager = Ok client /\
    tr = t ++ [EvCallContext (60 * time_Second) "eth_getTransactionCount"
                 [ArgAddress fromAddr; ArgString "latest"];
               EvCallContext (60 * time_Second) "eth_sendRawTransaction"
                 [ArgString hex]] /\
    answer_Raw client
      (t ++ [EvCallContext (60 * time_Second) "eth_getTransactionCount"
               [ArgAddress fromAddr; ArgString "latest"]])
      "eth_sendRawTransaction" [ArgString hex] = Ok result /\
    resp = Some obj /\
    Get "id" obj = Some (ID req) /\
    Get "result" obj = Some (Raw result) /\
    (exists h, Get "hash" obj = Some (Str h)).
Proof.
  unfold ExecuteRemoteSendTransaction.
  change (1 * time_Minute) with (60 * time_Second).
  case_results; intros [= <- <-].
  do 5 eexists. split; [reflexivity|].
  split; [by rewrite <- app_assoc|]. split; [eassumption|].
  split; [reflexivity|].
  repeat split;
    repeat (rewrite Get_Set_ne by discriminate); rewrite Get_Set_eq; eauto.
Qed.

(** The sample upstream run. *)
Lemma ExecuteRemoteSendTransaction_response_means_submitted_witness :
  exists obj,
    Get "id" obj = Some (Number 1) /\
    Get "result" obj = Some (Raw (Some "0xabc")).
Proof.
  destruct (ExecuteRemoteSendTransaction_response_means_submitted
              (Sample.J.env None) (Sample.J.manager true (Ok None))
              Sample.J.account Sample.J.sendTransaction Sample.J.call []
              (Some [("jsonrpc", Str "2.0"); ("id", Number 1);
                     ("result", Raw (Some "0xabc"));
                     ("hash", Str "0xhash:0xbaa")])
              [EvCallContext (60 * time_Second) "eth_getTransactionCount"
                 [ArgAddress "0xf00"; ArgString "latest"];
               EvCallContext (60 * time_Second) "eth_sendRawTransaction"
                 [ArgString "0xrlp:0xbaa"]]
              eq_refl)
    as (client & fromAddr & hex & result & obj & Hcl & Htr & Hans & Hresp & Hid & Hres & _).
  exists obj. split; [exact Hid|].
  injection Hcl as <-. cbn [app] in Htr.
  injection Htr as <- <-. cbn in Hans. injection Hans as <-. exact Hres.
Defined.


(** X4.  When the pass-through call succeeds with a raw message that is
    not nil, the function hands its text to the VM's [JSON.parse]: the
    parsed value becomes the [result] of the response with the request
    id; if parsing fails the response is an error response with the
    request id, code -32603 and the message of the parse error.  Either
    way the function returns the response and a nil error. *)
Theorem ExecuteOtherTransaction_result E manager req call t
    client JSON messageID result :
  RPCClient manager = Ok client ->
  Otto_Object (call_Otto call) "JSON" = Ok JSON ->
  Otto_Object (call_Otto call) jsonrpc_source = Ok jsonrpc_object ->
  preProcessRequest E (call_Otto call) req t = Ok messageID ->
  answer_Raw client (t ++ [EvPreProcess req]) (Method req)
    (map ArgValue (Params req)) = Ok (Some result) ->
  ExecuteOtherTransaction E manager req call t =
    Done (Ok (Some
                match JSON_parse (call_Otto call) result with
                | Ok resultVal =>
                    [("jsonrpc", Str "2.0"); ("id", ID req);
                     ("result", resultVal)]
                | Err callErr =>
                    [("jsonrpc", Str "2.0"); ("id", ID req);
                     ("error", Obj [("code", Number (-32603));
                                    ("message", Str (Error callErr))])]
                end))
         (t ++ [EvPreProcess req;
                EvCall (Method req) (map ArgValue (Params req));
                EvPostProcess req messageID]).
Proof.
  intros Hcl HJ Ho Hpre Hcall.
  unfold ExecuteOtherTransaction.
  rewrite Hcl, HJ, Ho. cbn. rewrite Hpre. cbn.
  unfold bind at 1. unfold Call_Raw. rewrite Hcall.
  destruct (JSON_parse (call_Otto call) result); cbn;
    rewrite <- !app_assoc; reflexivity.
Qed.

(** The sample client answering with a receipt. *)
Lemma ExecuteOtherTransaction_result_witness :
  exists tr,
    ExecuteOtherTransaction (Sample.J.env None)
      (Sample.J.manager false (Ok (Some "0x1")))
      (Sample.J.getTransactionReceipt 7) Sample.J.call [] =
    Done (Ok (Some [("jsonrpc", Str "2.0"); ("id", Number 7);
                    ("result", Str "0x1")])) tr.
Proof.
  eexists.
  apply (ExecuteOtherTransaction_result (Sample.J.env None)
           (Sample.J.manager false (Ok (Some "0x1")))
           (Sample.J.getTransactionReceipt 7) Sample.J.call []
           (Sample.J.client (Ok (Some "0x1"))) [] "msg-1" "0x1");
    reflexivity.
Defined.

(** X5.  With a client, a working VM and a successful pre-processing,
    the response of [ExecuteOtherTransaction] is a JSON-RPC 2.0
    response whatever the client answers and whatever the parsing
    gives: it has [jsonrpc] "2.0", the request id, and exactly one of
    [result] and [error]. *)
Theorem ExecuteOtherTransaction_response_shape E manager req call t
    client JSON messageID :
  RPCClient manager = Ok client ->
  Otto_Object (call_Otto call) "JSON" = Ok JSON ->
  Otto_Object (call_Otto call) jsonrpc_source = Ok jsonrpc_object ->
  preProcessRequest E (call_Otto call) req t = Ok messageID ->
  exists resp tr,
    ExecuteOtherTransaction E manager req call t = Done (Ok (Some resp)) tr /\
    Get "jsonrpc" resp = Some (Str "2.0") /\
    Get "id" resp = Some (ID req) /\
    ((Get "result" resp <> None /\ Get "error" resp = None) \/
     (Get "result" resp = None /\ Get "error" resp <> None)).
Proof.
  intros Hcl HJ Ho Hpre.
  unfold ExecuteOtherTransaction.
  rewrite Hcl, HJ, Ho. cbn. rewrite Hpre. cbn.
  unfold bind at 1. unfold Call_Raw.
  destruct (answer_Raw client _ _ _) as [[result|]|[]]; cbn;
    [destruct (JSON_parse (call_Otto call) result); cbn| | | |];
    eexists _, _; (split; [reflexivity|]); cbn;
    (split; [reflexivity|]); (split; [reflexivity|]);
    first [left; split; [discriminate|reflexivity]
          |right; split; [reflexivity|discriminate]].
Qed.

(** The sample client answering with a typed error. *)
Lemma ExecuteOtherTransaction_response_shape_witness :
  exists resp tr,
    ExecuteOtherTransaction (Sample.J.env None)
      (Sample.J.manager false (Err (rpc_Error (-32000) "header not found")))
      (Sample.J.getTransactionReceipt 7) Sample.J.call [] =
    Done (Ok (Some resp)) tr /\
    Get "jsonrpc" resp = Some (Str "2.0") /\
    Get "id" resp = Some (Number 7).
Proof.
  destruct (ExecuteOtherTransaction_response_shape (Sample.J.env None)
              (Sample.J.manager false (Err (rpc_Error (-32000) "header not found")))
              (Sample.J.getTransactionReceipt 7) Sample.J.call []
              (Sample.J.client (Err (rpc_Error (-32000) "header not found")))
              [] "msg-1")
    as (resp & tr & Hrun & Hv & Hid & _); try reflexivity.
  exists resp, tr. auto.
Defined.
End JailFacts.

(* ================================================================== *)
(** * Properties of package node *)
(* ================================================================== *)
Module NodeFacts.
Import Params Signal Node.

(** ** Lists as channel stores and sets of node ids *)

Lemma lookup_snoc_length {A} (l : list A) (x : A) :
  (l ++ [x]) !! length l = Some x.
Proof. by apply list_lookup_middle. Qed.

Lemma insert_snoc_length {A} (l : list A) (x y : A) :
  <[length l := y]> (l ++ [x]) = l ++ [y].
Proof. rewrite insert_app_r_alt; [|lia]. by rewrite Nat.sub_diag. Qed.

Lemma not_alive_after_stop (i : nat) (l : list nat) :
  bool_decide (i ∈ filter (λ j, j ≠ i) l) = false.
Proof.
  apply bool_decide_eq_false. rewrite list_elem_of_filter. tauto.
Qed.

Lemma alive_here (i : nat) (l : list nat) :
  bool_decide (i ∈ i :: l) = true.
Proof. apply bool_decide_eq_true_2, list_elem_of_here. Qed.

Local Opaque list_lookup list_insert bool_decide.

Ltac open_state s :=
  destruct s as [[cfg nd started stopped shh les rpc] [ch al pe sg files pd]];
  cbn [mgr world config node nodeStarted nodeStopped whisperService
       lesService rpcClient chans alive peers signals fs pending] in *.

(** Symbolic execution: unfold the manager's code and the monad, never
    the list functions, and settle the lookups by the lemmas above. *)
Ltac unfold_code :=
  cbv [startNode StartNode stopNode StopNode IsNodeRunning resetChainData
       ResetChainData restartNode RestartNode Node NodeConfig
       LightEthereumService WhisperService AccountManager AccountKeyStore
       RPCClient call_accessor observe
       PopulateStaticPeers populateStaticPeers addPeer AddPeer
       go_startNode go_nodeWait go_populateStaticPeers go_stopNode body
       run_task run_pass
       isNodeAvailable reset initLog
       setConfig getConfig getBootClusterEnabled getUpstreamConfig getBootNodes
       setNode getNode setNodeStarted nodeStartedIsNil readNodeStarted
       closeNodeStarted setNodeStopped nodeStoppedIsNil readNodeStopped
       closeNodeStopped setWhisperService getWhisperService
       whisperServiceIsNil setLesService getLesService lesServiceIsNil
       setRPCClient getRPCClient rpcClientIsNil
       Node_Start Node_Stop Node_Wait Node_Server_isNil
       os_Stat_IsNotExist os_RemoveAll
       make_chan chan_closed close recv signal_Send go
       with_chans with_alive with_peers with_signals with_fs with_pending
       get_mgr get_world put_mgr put_world bind ret block panic
       mgr world config node nodeStarted nodeStopped whisperService
       lesService rpcClient chans alive peers signals fs pending
       orb andb negb];
  cbn [app run_tasks addPeers].

Ltac run :=
  unfold_code;
  repeat first
    [ rewrite lookup_snoc_length
    | rewrite insert_snoc_length
    | rewrite not_alive_after_stop
    | rewrite alive_here
    | progress unfold_code ].

(** ** Waiting on a channel *)

Lemma await_loop_closed E fuel c s :
  chan_closed c (world s) = true -> await_loop E fuel c s = Ret tt s.
Proof.
  intros H.
  destruct fuel; cbn [await_loop]; unfold bind, get_world; cbv beta iota;
    rewrite H; reflexivity.
Qed.

Lemma await_loop_pass E fuel c s s' :
  chan_closed c (world s) = false ->
  run_pass E s = Ret tt s' ->
  await_loop E (S fuel) c s = await_loop E fuel c s'.
Proof.
  intros H Hp. cbn [await_loop]. unfold bind, get_world. cbv beta iota.
  rewrite H, Hp. reflexivity.
Qed.

Lemma run_pass_nothing_pending E s :
  pending (world s) = [] -> run_pass E s = Ret tt s.
Proof. open_state s. intros ->. reflexivity. Qed.

(** With nobody left to close it, an open channel stays open. *)
Lemma await_loop_nothing_pending E fuel c s :
  chan_closed c (world s) = false ->
  pending (world s) = [] ->
  await_loop E fuel c s = Block s.
Proof.
  intros H Hp. induction fuel as [|fuel IH].
  - cbn [await_loop]. unfold bind, get_world. cbv beta iota. rewrite H.
    reflexivity.
  - rewrite (await_loop_pass E fuel c s s H (run_pass_nothing_pending E s Hp)).
    exact IH.
Qed.

Lemma await_closed E c s :
  chan_closed c (world s) = true -> await E (Some c) s = Ret tt s.
Proof.
  intros H. unfold await, bind, get_world. cbv beta iota.
  by apply await_loop_closed.
Qed.

(** One pass of the pending goroutines closes the channel. *)
Lemma await_pass E c s s' :
  chan_closed c (world s) = false ->
  run_pass E s = Ret tt s' ->
  chan_closed c (world s') = true ->
  await E (Some c) s = Ret tt s'.
Proof.
  intros H Hp H'. unfold await, bind, get_world. cbv beta iota.
  rewrite Nat.add_1_r, (await_loop_pass E _ c s s' H Hp).
  by apply await_loop_closed.
Qed.

(** One pass ends every pending goroutine and leaves the channel
    open: the thread waits for good. *)
Lemma await_stuck E c s s' :
  chan_closed c (world s) = false ->
  run_pass E s = Ret tt s' ->
  chan_closed c (world s') = false ->
  pending (world s') = [] ->
  await E (Some c) s = Block s'.
Proof.
  intros H Hp H' Hn. unfold await, bind, get_world. cbv beta iota.
  rewrite Nat.add_1_r, (await_loop_pass E _ c s s' H Hp).
  by apply await_loop_nothing_pending.
Qed.

(** ** The start goroutine, path by path *)

Lemma startNode_idle E conf ethNode s :
  idle s ->
  MakeNode E conf = Ok ethNode ->
  startNode E conf s =
    Ret (Ok (Some (length (chans (world s)))))
        {| mgr := {| config := config (mgr s); node := None;
                     nodeStarted := Some (length (chans (world s)));
                     nodeStopped := nodeStopped (mgr s);
                     whisperService := whisperService (mgr s);
                     lesService := lesService (mgr s);
                     rpcClient := rpcClient (mgr s) |};
           world := {| chans := chans (world s) ++ [false];
                       alive := alive (world s); peers := peers (world s);
                       signals := signals (world s); fs := fs (world s);
                       pending := [GoStartNode ethNode conf] |} |}.
Proof.
  unfold idle. open_state s. intros (-> & -> & ->) HM.
  unfold startNode. cbn. rewrite HM. reflexivity.
Qed.


(** The RPC client cannot be built: the goroutine reports the crash
    and returns; the node stays installed and the started channel stays
    open. *)
Lemma startNode_rpc_failure_run E conf ethNode err s :
  idle s ->
  MakeNode E conf = Ok ethNode ->
  node_Start ethNode = None ->
  NewClient E (Some ethNode) (UpstreamConfig conf) = Err err ->
  let started := length (chans (world s)) in
  let s1 :=
    {| mgr := {| config := config (mgr s); node := None;
                 nodeStarted := Some started;
                 nodeStopped := nodeStopped (mgr s);
                 whisperService := whisperService (mgr s);
                 lesService := lesService (mgr s);
                 rpcClient := rpcClient (mgr s) |};
       world := {| chans := chans (world s) ++ [false];
                   alive := alive (world s); peers := peers (world s);
                   signals := signals (world s); fs := fs (world s);
                   pending := [GoStartNode ethNode conf] |} |} in
  let s2 :=
    {| mgr := {| config := Some conf; node := Some ethNode;
                 nodeStarted := Some started;
                 nodeStopped := Some (S started);
                 whisperService := whisperService (mgr s);
                 lesService := lesService (mgr s);
                 rpcClient := rpcClient (mgr s) |};
       world := {| chans := (chans (world s) ++ [false]) ++ [false];
                   alive := node_id ethNode :: alive (world s);
                   peers := peers (world s);
                   signals := signals (world s) ++
                     [{| Type_ := EventNodeCrashed;
                         Event_ := NodeCrashEvent (Error ErrRPCClient) |}];
                   fs := fs (world s);
                   pending := [] |} |} in
  startNode E conf s = Ret (Ok (Some started)) s1 /\
  run_pass E s1 = Ret tt s2 /\
  chan_closed started (world s1) = false /\
  chan_closed started (world s2) = false.
Proof.
  unfold idle. open_state s. intros (-> & -> & ->) HM HS HC.
  cbv zeta. split; [run; rewrite HM; run; reflexivity|].
  split; [|split].
  - run. rewrite HS. run. rewrite HC. run.
    rewrite length_app, Nat.add_1_r. reflexivity.
  - run. reflexivity.
  - run. rewrite (lookup_app_l_Some _ _ _ _ (lookup_snoc_length ch false)).
    reflexivity.
Qed.

(** Everything succeeds: the started channel is closed and the node
    runs. *)
Lemma startNode_success E conf ethNode client s :
  idle s ->
  MakeNode E conf = Ok ethNode ->
  node_Start ethNode = None ->
  NewClient E (Some ethNode) (UpstreamConfig conf) = Ok client ->
  exists started s1 s2,
    startNode E conf s = Ret (Ok (Some started)) s1 /\
    await E (Some started) s1 = Ret tt s2 /\
    chan_closed started (world s2) = true /\
    running s2 ethNode conf /\
    rpcClient (mgr s2) = Some client /\
    signals (world s2) =
      signals (world s) ++ [{| Type_ := EventNodeStarted; Event_ := Empty |}].
Proof.
  unfold idle. open_state s. intros (-> & -> & ->) HM HS HC.
  eexists _, _, _. split; [run; rewrite HM; run; reflexivity|].
  assert (Hold : ((ch ++ [false]) ++ [false]) !! length ch = Some false)
    by apply (lookup_app_l_Some _ _ _ _ (lookup_snoc_length ch false)).
  assert (Hins : <[length ch := true]> ((ch ++ [false]) ++ [false])
                 = (ch ++ [true]) ++ [false]).
  { rewrite insert_app_l; [|rewrite length_app; cbn; lia].
    by rewrite insert_snoc_length. }
  split; [eapply await_pass|].
  - run. reflexivity.
  - run. rewrite HS. run. rewrite HC. run. rewrite Hold. run.
    rewrite Hins. run. reflexivity.
  - run. rewrite (lookup_app_l_Some _ _ _ _ (lookup_snoc_length ch true)).
    reflexivity.
  - run. rewrite (lookup_app_l_Some _ _ _ _ (lookup_snoc_length ch true)).
    split; [reflexivity|]. split; [|split; reflexivity].
    exists (length ch), (length (ch ++ [false])), 1%nat. run.
    repeat split.
    + apply (lookup_app_l_Some _ _ _ _ (lookup_snoc_length ch true)).
    + replace (length (ch ++ [false])) with (length (ch ++ [true]))
        by (rewrite !length_app; reflexivity).
      apply lookup_snoc_length.
    + apply list_elem_of_here.
Qed.

(** C1 (where the code departs from the claim).  When the underlying
    node starts and the RPC client cannot be built, the goroutine of
    startNode ends without closing the started channel: a caller that
    waits on the channel returned by startNode waits for good, with no
    goroutine left that could close it.  (The other two paths close
    it: [startNode_start_failure], [startNode_success].) *)
Theorem startNode_rpc_failure_started_open E conf ethNode err s :
  idle s ->
  MakeNode E conf = Ok ethNode ->
  node_Start ethNode = None ->
  NewClient E (Some ethNode) (UpstreamConfig conf) = Err err ->
  exists started s1 s2,
    startNode E conf s = Ret (Ok (Some started)) s1 /\
    await E (Some started) s1 = Block s2 /\
    pending (world s2) = [] /\
    chan_closed started (world s2) = false.
Proof.
  intros Hidle HM HS HC.
  destruct (startNode_rpc_failure_run E conf ethNode err s Hidle HM HS HC)
    as (Hstart & Hpass & Hopen1 & Hopen2).
  eexists _, _, _. split; [exact Hstart|].
  split.
  { eapply await_stuck; [exact Hopen1|exact Hpass|exact Hopen2|reflexivity]. }
  split; [reflexivity|exact Hopen2].
Qed.

(** The sample node with an RPC client that cannot be built. *)
Lemma startNode_rpc_failure_started_open_witness :
  exists started s1 s2,
    startNode (Sample.N.env None false) Sample.N.config (Sample.N.init true)
      = Ret (Ok (Some started)) s1 /\
    await (Sample.N.env None false) (Some started) s1 = Block s2 /\
    pending (world s2) = [] /\
    chan_closed started (world s2) = false.
Proof.
  apply (startNode_rpc_failure_started_open (Sample.N.env None false)
           Sample.N.config (Sample.N.ethNode 1 None)
           (errors_New "dial unix geth.ipc: no such file")
           (Sample.N.init true));
    [repeat split|reflexivity|reflexivity|reflexivity].
Defined.

(** C2 (where the code departs from the claim).  When the underlying
    node starts and the RPC client cannot be built, the goroutine
    publishes the NodeCrashed signal with the reason and returns, and
    the manager is not back to idle: the node stays installed behind
    an open started channel, so [IsNodeRunning] does not return, and
    a further [startNode] fails with [ErrNodeExists]. *)
Theorem startNode_rpc_failure_not_idle E conf conf' ethNode err s :
  idle s ->
  MakeNode E conf = Ok ethNode ->
  node_Start ethNode = None ->
  NewClient E (Some ethNode) (UpstreamConfig conf) = Err err ->
  exists started s1 s2,
    startNode E conf s = Ret (Ok (Some started)) s1 /\
    run_pass E s1 = Ret tt s2 /\
    pending (world s2) = [] /\
    signals (world s2) =
      signals (world s) ++
      [{| Type_ := EventNodeCrashed;
          Event_ := NodeCrashEvent (Error ErrRPCClient) |}] /\
    IsNodeRunning s2 = Block s2 /\
    startNode E conf' s2 = Ret (Err ErrNodeExists) s2.
Proof.
  intros Hidle HM HS HC.
  destruct (startNode_rpc_failure_run E conf ethNode err s Hidle HM HS HC)
    as (Hstart & Hpass & _ & Hopen2).
  eexists _, _, _. split; [exact Hstart|]. split; [exact Hpass|].
  split; [reflexivity|]. split; [reflexivity|].
  revert Hopen2. clear. open_state s. intros Hopen2. split.
  - run. revert Hopen2. run. intros ->. reflexivity.
  - run. reflexivity.
Qed.

(** The sample node with an RPC client that cannot be built. *)
Lemma startNode_rpc_failure_not_idle_witness :
  exists started s1 s2,
    startNode (Sample.N.env None false) Sample.N.config (Sample.N.init true)
      = Ret (Ok (Some started)) s1 /\
    run_pass (Sample.N.env None false) s1 = Ret tt s2 /\
    pending (world s2) = [] /\
    signals (world s2) =
      [{| Type_ := EventNodeCrashed;
          Event_ := NodeCrashEvent "failed to init RPC client" |}] /\
    IsNodeRunning s2 = Block s2 /\
    startNode (Sample.N.env None false) Sample.N.config s2
      = Ret (Err ErrNodeExists) s2.
Proof.
  apply (startNode_rpc_failure_not_idle (Sample.N.env None false)
           Sample.N.config Sample.N.config (Sample.N.ethNode 1 None)
           (errors_New "dial unix geth.ipc: no such file")
           (Sample.N.init true));
    [repeat split|reflexivity|reflexivity|reflexivity].
Defined.

(** ** Accessors *)

(** What the stop goroutine leaves when it has run to its end. *)
Lemma go_stopNode_ends c s0 r s :
  go_stopNode c s0 = Ret r s ->
  node (mgr s) = None /\ nodeStarted (mgr s) = None /\
  rpcClient (mgr s) = None /\ config (mgr s) = None /\
  chan_closed c (world s) = true.
Proof.
  open_state s0. run.
  destruct stopped as [c'|]; run; [|discriminate].
  destruct (ch !! c') as [[|]|]; run; try discriminate.
  destruct (ch !! c) as [[|]|] eqn:Hc; run; try discriminate.
  intros [= <- <-]. run.
  rewrite list_lookup_insert_eq; [repeat split|].
  by apply lookup_lt_Some in Hc.
Qed.

Lemma guarded_without_node a s :
  a <> AccRPCClient ->
  node (mgr s) = None \/ nodeStarted (mgr s) = None ->
  call_accessor a s = Ret no_running_node s.
Proof.
  intros Ha Hnone. open_state s.
  destruct Hnone as [->| ->]; destruct a; try contradiction; run;
    try reflexivity; destruct started; reflexivity.
Qed.

Lemma guarded_blocks a s n c :
  a <> AccRPCClient ->
  node (mgr s) = Some n ->
  nodeStarted (mgr s) = Some c ->
  chan_closed c (world s) = false ->
  call_accessor a s = Block s.
Proof.
  intros Ha Hn Hs. open_state s. subst. run. intros Hopen.
  destruct a; try contradiction; run; rewrite Hopen; reflexivity.
Qed.

Lemma accessor_returns a s n c :
  node (mgr s) = Some n ->
  nodeStarted (mgr s) = Some c ->
  chan_closed c (world s) = true ->
  exists r, call_accessor a s = Ret r s.
Proof.
  intros Hn Hs. open_state s. subst. run. intros Hclosed.
  destruct a; run; rewrite ?Hclosed; run.
  - eauto.
  - eauto.
  - destruct les, (node_Service_les n); run; eauto.
  - destruct shh, (node_Service_whisper n); run; eauto.
  - destruct (node_AccountManager n); run; eauto.
  - destruct (node_AccountManager n) as [[[|[]]]|]; run; eauto.
  - eauto.
Qed.

(** C7, as amended.  The accessors that go through [isNodeAvailable]
    (Node, NodeConfig, LightEthereumService, WhisperService,
    AccountManager, AccountKeyStore) fail with [ErrNoRunningNode] once
    the stop goroutine has run, and also whenever no node or no started
    channel is installed, which includes the beginning of a start;
    while a node is installed and its started channel is open they
    block, and once it is closed they return.  [RPCClient] has no error
    result: after a stop it returns a nil client, and in no state does
    it block. *)
Theorem accessors_by_lifecycle :
  (forall a c s0 r s,
      a <> AccRPCClient ->
      go_stopNode c s0 = Ret r s ->
      call_accessor a s = Ret no_running_node s) /\
  (forall c s0 r s,
      go_stopNode c s0 = Ret r s ->
      call_accessor AccRPCClient s
      = Ret {| obs_err := None; obs_nil := true |} s) /\
  (forall a s,
      a <> AccRPCClient ->
      node (mgr s) = None \/ nodeStarted (mgr s) = None ->
      call_accessor a s = Ret no_running_node s) /\
  (forall a s n started,
      a <> AccRPCClient ->
      node (mgr s) = Some n ->
      nodeStarted (mgr s) = Some started ->
      chan_closed started (world s) = false ->
      call_accessor a s = Block s) /\
  (forall a s n started,
      node (mgr s) = Some n ->
      nodeStarted (mgr s) = Some started ->
      chan_closed started (world s) = true ->
      exists r, call_accessor a s = Ret r s) /\
  (forall s, exists r, call_accessor AccRPCClient s = Ret r s).
Proof.
  split; [|split; [|split; [|split; [|split]]]].
  - intros a c s0 r s Ha Hstop.
    apply go_stopNode_ends in Hstop as (Hn & _).
    apply guarded_without_node; auto.
  - intros c s0 r s Hstop.
    apply go_stopNode_ends in Hstop as (_ & _ & Hrpc & _).
    open_state s. subst. reflexivity.
  - exact guarded_without_node.
  - exact guarded_blocks.
  - exact accessor_returns.
  - intros s. eexists. reflexivity.
Qed.

(** The theorem on sample states: after the stop goroutine has run,
    and with a node stuck behind an open started channel. *)
Lemma accessors_by_lifecycle_witness :
  (exists s,
      go_stopNode 2 Sample.N.stopping_state = Ret None s /\
      call_accessor AccAccountKeyStore s = Ret no_running_node s /\
      call_accessor AccRPCClient s
      = Ret {| obs_err := None; obs_nil := true |} s) /\
  call_accessor AccNode Sample.N.rpc_failed_state
  = Block Sample.N.rpc_failed_state.
Proof.
  destruct accessors_by_lifecycle as (Hstop & Hrpc & _ & Hblock & _).
  split.
  - eexists. split; [vm_compute; reflexivity|]. split.
    + apply (Hstop AccAccountKeyStore 2%nat Sample.N.stopping_state None);
        [discriminate|vm_compute; reflexivity].
    + apply (Hrpc 2%nat Sample.N.stopping_state None).
      vm_compute; reflexivity.
  - apply (Hblock AccNode Sample.N.rpc_failed_state
             (Sample.N.ethNode 1 None) 0%nat);
      [discriminate|reflexivity|reflexivity|vm_compute; reflexivity].
Defined.

(** C7 as stated fails.  After a start and a completed stop of the
    sample node, [RPCClient] returns a nil client and no error, not
    [ErrNoRunningNode]; and right after [StartNode] has returned, with
    the start in progress and the started channel open, [NodeConfig]
    does not block: it fails with [ErrNoRunningNode]. *)
Lemma accessors_counterexample :
  (exists c,
      (do _r <- Sample.N.start_and_wait (Sample.N.env None true);
       Sample.N.stop_and_wait (Sample.N.env None true)) (Sample.N.init true)
      = Ret (Ok c) Sample.N.stopped_state) /\
  call_accessor AccRPCClient Sample.N.stopped_state
  = Ret {| obs_err := None; obs_nil := true |} Sample.N.stopped_state /\
  call_accessor AccRPCClient Sample.N.stopped_state
  <> Ret no_running_node Sample.N.stopped_state /\
  nodeStarted (mgr Sample.N.starting_state) = Some 0%nat /\
  chan_closed 0 (world Sample.N.starting_state) = false /\
  call_accessor AccNodeConfig Sample.N.starting_state
  = Ret no_running_node Sample.N.starting_state.
Proof.
  split; [eexists; vm_compute; reflexivity|].
  split; [vm_compute; reflexivity|].
  split; [vm_compute; discriminate|].
  split; [vm_compute; reflexivity|].
  split; vm_compute; reflexivity.
Qed.

(** ** Resetting the chain data *)

(** On a node whose stack is down, adding peers changes nothing. *)
Lemma addPeers_stack_down E enodes s n :
  node (mgr s) = Some n ->
  node_id n ∉ alive (world s) ->
  addPeers E enodes s = Ret tt s.
Proof.
  intros Hn Hal. open_state s. subst.
  induction enodes as [|enode rest IH]; [reflexivity|].
  run. rewrite (bool_decide_eq_false_2 _ Hal). run. exact IH.
Qed.

Lemma run_task_peers_stack_down E s n c conf :
  node (mgr s) = Some n ->
  nodeStarted (mgr s) = Some c ->
  chans (world s) !! c = Some true ->
  config (mgr s) = Some conf ->
  node_id n ∉ alive (world s) ->
  run_task E GoPopulateStaticPeers s = Ret None s.
Proof.
  intros Hn Hs Hc Hcfg Hal.
  pose proof (addPeers_stack_down E (BootNodes (BootCluster conf)) s n Hn Hal)
    as Hadd.
  open_state s. subst. run. rewrite Hc. run.
  destruct (BootEnabled (BootCluster conf)); run; [|reflexivity].
  rewrite Hadd. reflexivity.
Qed.

Lemma run_tasks_peers_stack_down E k rest s n c conf :
  node (mgr s) = Some n ->
  nodeStarted (mgr s) = Some c ->
  chans (world s) !! c = Some true ->
  config (mgr s) = Some conf ->
  node_id n ∉ alive (world s) ->
  run_tasks E (replicate k GoPopulateStaticPeers ++ rest) s =
  run_tasks E rest s.
Proof.
  intros Hn Hs Hc Hcfg Hal. induction k as [|k IH]; [reflexivity|].
  cbn [replicate app run_tasks]. unfold bind at 1.
  rewrite (run_task_peers_stack_down E s n c conf Hn Hs Hc Hcfg Hal).
  unfold bind at 1. rewrite IH.
  destruct (run_tasks E rest s); reflexivity.
Qed.

(** [stopNode] on a running node and the wait for its channel: the
    stack is down, the manager is reset (the stopped channel stays),
    the stopped signal is out, and no goroutine is left. *)
Lemma stop_running E s n conf :
  running s n conf ->
  node_Stop n = None ->
  exists c2 s1,
    nodeStopped (mgr s) = Some c2 /\
    stopNode s = Ret (Ok (length (chans (world s)))) s1 /\
    await E (Some (length (chans (world s)))) s1 =
    Ret tt
        {| mgr := {| config := None; node := None; nodeStarted := None;
                     nodeStopped := Some c2; whisperService := None;
                     lesService := None; rpcClient := None |};
           world := {| chans := <[length (chans (world s)) := true]>
                                  (<[c2 := true]> (chans (world s) ++ [false]));
                       alive := filter (λ i, i ≠ node_id n) (alive (world s));
                       peers := peers (world s);
                       signals := signals (world s) ++ [stopped_signal];
                       fs := fs (world s);
                       pending := [] |} |}.
Proof.
  intros (c1 & c2 & k & Hcfg & Hn & Hs & Hst & Hc1 & Hc2 & Hal & Hpd) Hstop.
  open_state s. subst.
  assert (Hlt : (c2 < length ch)%nat) by (by apply lookup_lt_Some in Hc2).
  assert (Hfresh : (ch ++ [false]) !! length ch = Some false)
    by apply lookup_snoc_length.
  assert (Hc2' : (ch ++ [false]) !! c2 = Some false)
    by (by apply lookup_app_l_Some).
  assert (Hc2'' : <[c2 := true]> (ch ++ [false]) !! c2 = Some true).
  { apply list_lookup_insert_eq. rewrite length_app. lia. }
  assert (Hc1' : <[c2 := true]> (ch ++ [false]) !! c1 = Some true).
  { destruct (decide (c2 = c1)) as [->|Hne]; [congruence|].
    rewrite list_lookup_insert_ne by done. by apply lookup_app_l_Some. }
  assert (Hfresh' : <[c2 := true]> (ch ++ [false]) !! length ch = Some false).
  { rewrite list_lookup_insert_ne by lia. exact Hfresh. }
  assert (Hdown : node_id n ∉ filter (λ i, i ≠ node_id n) al).
  { rewrite list_elem_of_filter. tauto. }
  eexists c2, _. split; [reflexivity|]. split.
  { run. rewrite (bool_decide_eq_true_2 _ Hal). run. rewrite Hstop. run.
    reflexivity. }
  eapply await_pass.
  - run. reflexivity.
  - run. rewrite Hc2'. run.
    erewrite run_tasks_peers_stack_down;
      [|reflexivity|reflexivity|exact Hc1'|reflexivity|exact Hdown].
    run. rewrite Hc2''. run. rewrite Hfresh'. run. reflexivity.
  - run. rewrite list_lookup_insert_eq; [reflexivity|].
    rewrite length_insert, length_app. cbn. lia.
Qed.



(** ** Further properties of the node manager *)

(** X6.  [startNode] refuses when a node or a started channel is
    already installed, with [ErrNodeExists]; and whenever it returns an
    error, that is either this refusal or the error of [MakeNode], and
    nothing has happened: no channel was made, no goroutine spawned, no
    field set, no signal sent. *)
Theorem startNode_error_no_effect E conf :
  (forall s,
      node (mgr s) <> None \/ nodeStarted (mgr s) <> None ->
      startNode E conf s = Ret (Err ErrNodeExists) s) /\
  (forall s err s',
      startNode E conf s = Ret (Err err) s' ->
      s' = s /\
      ((err = ErrNodeExists /\
        (node (mgr s) <> None \/ nodeStarted (mgr s) <> None)) \/
       (MakeNode E conf = Err err /\
        node (mgr s) = None /\ nodeStarted (mgr s) = None))).
Proof.
  split.
  - intros s Hocc. open_state s.
    destruct nd, started; run; try reflexivity.
    destruct Hocc; contradiction.
  - intros s err s'. open_state s.
    destruct nd, started; run;
      try (intros [= <- <-]; split; [reflexivity|];
           left; split; [reflexivity|]; first [left; discriminate|right; discriminate]).
    destruct (MakeNode E conf) as [ethNode|e] eqn:HM; run; [discriminate|].
    intros [= <- <-]. split; [reflexivity|]. right. auto.
Qed.

(** A second [startNode] on the running sample node. *)
Lemma startNode_error_no_effect_witness :
  startNode (Sample.N.env None true) Sample.N.config
    (Sample.N.running_state true)
  = Ret (Err ErrNodeExists) (Sample.N.running_state true).
Proof.
  destruct (startNode_error_no_effect (Sample.N.env None true) Sample.N.config)
    as [Hrefuse _].
  apply Hrefuse. left. discriminate.
Defined.

Lemma IsNodeRunning_running s n conf :
  running s n conf -> IsNodeRunning s = Ret true s.
Proof.
  intros (c1 & c2 & k & Hcfg & Hn & Hs & Hst & Hc1 & Hc2 & Hal & Hpd).
  open_state s. subst. run. rewrite Hc1. reflexivity.
Qed.

Lemma IsNodeRunning_idle s :
  idle s -> IsNodeRunning s = Ret false s.
Proof.
  unfold idle. open_state s. intros (-> & -> & ->). reflexivity.
Qed.

(** [StopNode] on a running node, and the wait for the channel it
    returns. *)
Lemma StopNode_running_run E s n conf :
  running s n conf ->
  node_Stop n = None ->
  exists c s1 s2,
    StopNode s = Ret (Ok c) s1 /\
    await E (Some c) s1 = Ret tt s2 /\
    mgr s2 = {| config := None; node := None; nodeStarted := None;
                nodeStopped := nodeStopped (mgr s); whisperService := None;
                lesService := None; rpcClient := None |} /\
    pending (world s2) = [] /\
    alive (world s2) = filter (λ i, i ≠ node_id n) (alive (world s)) /\
    signals (world s2) = signals (world s) ++ [stopped_signal] /\
    fs (world s2) = fs (world s) /\
    peers (world s2) = peers (world s).
Proof.
  intros Hrun Hstop.
  destruct (stop_running E s n conf Hrun Hstop)
    as (c2 & s1 & Hst & Hstopped & Hawait).
  destruct Hrun as (c1 & c2' & k & Hcfg & Hn & Hs & Hst' & Hc1 & _ & _ & _).
  assert (Hhead : StopNode s = stopNode s).
  { unfold StopNode. unfold bind at 1.
    unfold isNodeAvailable, nodeStartedIsNil, getNode, nodeStoppedIsNil,
      readNodeStarted, get_mgr, recv, get_world, chan_closed, bind, ret.
    repeat (progress (cbv beta iota; rewrite ?Hs, ?Hn, ?Hst', ?Hc1)).
    destruct (stopNode s); reflexivity. }
  eexists _, _, _. split; [rewrite Hhead; exact Hstopped|].
  split; [exact Hawait|].
  cbn. rewrite Hst. repeat split.
Qed.







(** X10.  [LightEthereumService] and [WhisperService] ask the node for
    the service into a local variable and then read the manager's
    field, which nothing sets: on a started node whose field is nil
    they fail with [ErrInvalidLightEthereumService] and
    [ErrInvalidWhisperService], also when the node has the service. *)
Theorem services_not_cached s n c :
  node (mgr s) = Some n ->
  nodeStarted (mgr s) = Some c ->
  chan_closed c (world s) = true ->
  (lesService (mgr s) = None ->
   LightEthereumService s = Ret (Err ErrInvalidLightEthereumService) s) /\
  (whisperService (mgr s) = None ->
   WhisperService s = Ret (Err ErrInvalidWhisperService) s).
Proof.
  intros Hn Hs. open_state s. subst. run. intros Hc.
  split; intros ->; run; rewrite Hc; run.
  - destruct (node_Service_les n); reflexivity.
  - destruct (node_Service_whisper n); reflexivity.
Qed.

(** The running sample node, whose [Service] calls succeed. *)
Lemma services_not_cached_witness :
  node_Service_les (Sample.N.ethNode 1 None) = None /\
  LightEthereumService (Sample.N.running_state true)
  = Ret (Err ErrInvalidLightEthereumService) (Sample.N.running_state true) /\
  WhisperService (Sample.N.running_state true)
  = Ret (Err ErrInvalidWhisperService) (Sample.N.running_state true).
Proof.
  destruct (services_not_cached (Sample.N.running_state true)
              (Sample.N.ethNode 1 None) 0%nat)
    as [Hles Hshh]; [reflexivity|reflexivity|vm_compute; reflexivity|].
  split; [reflexivity|]. split; [apply Hles|apply Hshh]; reflexivity.
Defined.

(** X11.  The accessors only look: in whatever state one of them is
    called, and whether it returns, blocks or panics, the manager and
    everything around it are left as they were. *)
Theorem accessors_read_only a s :
  match call_accessor a s with
  | Ret _ s' => s' = s
  | Block s' => s' = s
  | Panic s' => s' = s
  end.
Proof.
  open_state s.
  destruct a, started as [c|], nd as [n|]; run; try reflexivity;
    destruct (ch !! c) as [[|]|]; run; try reflexivity.
  - destruct les, (node_Service_les n); reflexivity.
  - destruct shh, (node_Service_whisper n); reflexivity.
  - destruct (node_AccountManager n); reflexivity.
  - destruct (node_AccountManager n) as [[[|[]]]|]; reflexivity.
Qed.

(** ** Static peers *)

Lemma addPeers_stack_up E enodes n cfg started stopped shh les rpc
    ch al pe sg files pd :
  node_id n ∈ al ->
  addPeers E enodes
    {| mgr := {| config := cfg; node := Some n; nodeStarted := started;
                 nodeStopped := stopped; whisperService := shh;
                 lesService := les; rpcClient := rpc |};
       world := {| chans := ch; alive := al; peers := pe; signals := sg;
                   fs := files; pending := pd |} |}
  = Ret tt
    {| mgr := {| config := cfg; node := Some n; nodeStarted := started;
                 nodeStopped := stopped; whisperService := shh;
                 lesService := les; rpcClient := rpc |};
       world := {| chans := ch; alive := al;
                   peers := pe ++ map (pair (node_id n))
                                      (List.filter (parses E) enodes);
                   signals := sg; fs := files; pending := pd |} |}.
Proof.
  intros Hal. revert pe.
  induction enodes as [|enode rest IH]; intros pe.
  - cbn. by rewrite app_nil_r.
  - run. rewrite (bool_decide_eq_true_2 _ Hal). run.
    unfold parses at 1. cbn [List.filter].
    destruct (ParseNode E enode); run; rewrite IH.
    + reflexivity.
    + cbn. by rewrite <- app_assoc.
Qed.

(** X12.  [PopulateStaticPeers] on a running node returns nil and
    changes nothing but the node's static peers: with the boot cluster
    enabled it adds the boot nodes whose URL [discover.ParseNode]
    accepts, in the order of the configuration, and skips the others
    without failing; with the boot cluster disabled it adds none. *)
Theorem PopulateStaticPeers_running E s n conf :
  running s n conf ->
  PopulateStaticPeers E s =
  Ret None
      {| mgr := mgr s;
         world :=
           with_peers
             (peers (world s) ++
              if BootEnabled (BootCluster conf)
              then map (pair (node_id n))
                       (List.filter (parses E) (BootNodes (BootCluster conf)))
              else [])
             (world s) |}.
Proof.
  intros (c1 & c2 & k & Hcfg & Hn & Hs & Hst & Hc1 & Hc2 & Hal & Hpd).
  open_state s. subst. run. rewrite Hc1. run.
  destruct (BootEnabled (BootCluster conf)); run.
  - rewrite (addPeers_stack_up E _ n _ _ _ _ _ _ _ _ _ _ _ _ Hal).
    reflexivity.
  - by rewrite app_nil_r.
Qed.

(** The running sample node: of the two boot nodes of its
    configuration only the first has a URL that parses. *)
Lemma PopulateStaticPeers_running_witness :
  exists s',
    PopulateStaticPeers (Sample.N.env None true) (Sample.N.running_state true)
    = Ret None s' /\
    peers (world s') = [(1%nat, "enode://a")].
Proof.
  eexists. split.
  - apply (PopulateStaticPeers_running (Sample.N.env None true)
             (Sample.N.running_state true) (Sample.N.ethNode 1 None)
             Sample.N.config).
    exists 0%nat, 1%nat, 1%nat. repeat split. apply list_elem_of_here.
  - reflexivity.
Defined.

(** ** Nothing of the past is undone *)

Lemma history_refl s : history s s.
Proof.
  unfold history. split_and!; auto.
  - exists []. by rewrite app_nil_r.
  - exists 0%nat. lia.
  - exists []. by rewrite app_nil_r.
Qed.

Lemma history_trans s1 s2 s3 : history s1 s2 -> history s2 s3 -> history s1 s3.
Proof.
  intros ([a Ha] & [m Hm] & Hc & [p Hp] & Hf)
         ([a' Ha'] & [m' Hm'] & Hc' & [p' Hp'] & Hf').
  unfold history. split_and!; auto.
  - exists (a ++ a'). by rewrite Ha', Ha, app_assoc.
  - exists (m + m')%nat. lia.
  - exists (p ++ p'). by rewrite Hp', Hp, app_assoc.
Qed.

Lemma history_same s s' :
  signals (world s') = signals (world s) ->
  chans (world s') = chans (world s) ->
  peers (world s') = peers (world s) ->
  fs (world s') = fs (world s) ->
  history s s'.
Proof.
  intros Hsg Hch Hpe Hfs. unfold history, chan_closed.
  rewrite Hsg, Hch, Hpe, Hfs. apply (history_refl s).
Qed.

Lemma history_same_world s s' : world s' = world s -> history s s'.
Proof. intros H. apply history_same; by rewrite H. Qed.

Ltac history_parts :=
  unfold history, chan_closed; cbn; split_and!;
  try first [ by (exists []; rewrite app_nil_r)
            | by (exists 0%nat; lia)
            | done ].

Lemma keeps_ret {A} (a : A) : keeps (ret a).
Proof. intros s. apply history_refl. Qed.

Lemma keeps_block {A} : keeps (@block A).
Proof. intros s. apply history_refl. Qed.

Lemma keeps_panic {A} : keeps (@panic A).
Proof. intros s. apply history_refl. Qed.

Lemma keeps_bind {A B} (c : M A) (k : A -> M B) :
  keeps c -> (forall a, keeps (k a)) -> keeps (bind c k).
Proof.
  intros Hc Hk s. unfold bind. specialize (Hc s).
  destruct (c s) as [a s'|s'|s']; [|exact Hc|exact Hc].
  specialize (Hk a s').
  destruct (k a s'); eapply history_trans; eassumption.
Qed.

Lemma keeps_get_mgr : keeps get_mgr.
Proof. intros s. apply history_refl. Qed.

Lemma keeps_get_world : keeps get_world.
Proof. intros s. apply history_refl. Qed.

Lemma keeps_put_mgr m : keeps (put_mgr m).
Proof. intros s. by apply history_same_world. Qed.

Lemma keeps_go t : keeps (go t).
Proof. intros s. open_state s. run. by apply history_same. Qed.

Lemma keeps_signal_Send e : keeps (signal_Send e).
Proof.
  intros s. open_state s. run. history_parts. by exists [e].
Qed.

Lemma keeps_make_chan : keeps make_chan.
Proof.
  intros s. open_state s. run. history_parts.
  - exists 1%nat. by rewrite length_app.
  - intros c. destruct (ch !! c) as [b|] eqn:Hc; [|discriminate].
    by rewrite (lookup_app_l_Some _ _ _ _ Hc).
Qed.

Lemma keeps_close c : keeps (close c).
Proof.
  intros s. open_state s. destruct c as [c|]; run; [|apply history_refl].
  destruct (ch !! c) as [[|]|] eqn:Hc; run; try apply history_refl.
  history_parts.
  - exists 0%nat. rewrite length_insert. lia.
  - intros c'. destruct (decide (c = c')) as [<-|Hne].
    + rewrite list_lookup_insert_eq; [done|]. by apply lookup_lt_Some in Hc.
    + by rewrite list_lookup_insert_ne.
Qed.

Lemma keeps_recv c : keeps (recv c).
Proof.
  intros s. open_state s. destruct c as [c|]; run; [|apply history_refl].
  destruct (ch !! c) as [[|]|]; apply history_refl.
Qed.

Lemma keeps_Node_Start n : keeps (Node_Start n).
Proof.
  intros s. open_state s. run.
  destruct (node_Start n); run; [apply history_refl|by apply history_same].
Qed.

Lemma keeps_Node_Stop n : keeps (Node_Stop n).
Proof.
  intros s. open_state s. run.
  destruct (bool_decide (node_id n ∈ al)); run;
    [by apply history_same|apply history_refl].
Qed.

Lemma keeps_Node_Wait n : keeps (Node_Wait n).
Proof.
  intros s. open_state s. run.
  destruct (bool_decide (node_id n ∈ al)); apply history_refl.
Qed.

Lemma keeps_Node_Server_isNil n : keeps (Node_Server_isNil n).
Proof. intros s. apply history_refl. Qed.

Lemma keeps_os_Stat_IsNotExist p : keeps (os_Stat_IsNotExist p).
Proof. intros s. apply history_refl. Qed.

Lemma keeps_os_RemoveAll E p : keeps (os_RemoveAll E p).
Proof.
  intros s. open_state s. run.
  destruct (RemoveAll_error E p); run; [apply history_refl|].
  history_parts. intros q. rewrite list_elem_of_filter. tauto.
Qed.

Lemma keeps_addPeer E url : keeps (addPeer E url).
Proof.
  intros s. open_state s. run.
  destruct nd as [n|]; run; [|apply history_refl].
  destruct (bool_decide (node_id n ∈ al)); run; [|apply history_refl].
  destruct (ParseNode E url); run; [apply history_refl|].
  history_parts. by eexists.
Qed.

Create HintDb keeps discriminated.
#[local] Hint Resolve keeps_get_mgr keeps_get_world keeps_put_mgr keeps_go
  keeps_signal_Send keeps_make_chan keeps_close keeps_recv keeps_Node_Start
  keeps_Node_Stop keeps_Node_Wait keeps_Node_Server_isNil
  keeps_os_Stat_IsNotExist keeps_os_RemoveAll keeps_addPeer : keeps.

Ltac keeps_step :=
  first
    [ apply keeps_ret | apply keeps_block | apply keeps_panic
    | solve [auto with keeps]
    | apply keeps_bind; [|intros ?]
    | match goal with
      | |- keeps (match ?x with _ => _ end) => destruct x
      | |- keeps (if ?x then _ else _) => destruct x
      end ].

(** The functions built from those above by sequencing and branching. *)
Ltac keeps_code :=
  unfold startNode, StartNode, stopNode, StopNode, IsNodeRunning,
    Node, NodeConfig, LightEthereumService, WhisperService, AccountManager,
    AccountKeyStore, RPCClient, call_accessor,
    PopulateStaticPeers, populateStaticPeers, AddPeer,
    go_startNode, go_nodeWait, go_populateStaticPeers, go_stopNode,
    isNodeAvailable, reset, initLog,
    setConfig, getConfig, getBootClusterEnabled, getUpstreamConfig,
    getBootNodes, setNode, getNode, setNodeStarted, nodeStartedIsNil,
    readNodeStarted, closeNodeStarted, setNodeStopped, nodeStoppedIsNil,
    readNodeStopped, closeNodeStopped, setWhisperService, getWhisperService,
    whisperServiceIsNil, setLesService, getLesService, lesServiceIsNil,
    setRPCClient, getRPCClient, rpcClientIsNil;
  repeat keeps_step.

Lemma keeps_addPeers E enodes : keeps (addPeers E enodes).
Proof.
  induction enodes as [|enode rest IH]; cbn [addPeers]; repeat keeps_step.
Qed.
#[local] Hint Resolve keeps_addPeers : keeps.

Lemma keeps_body E t : keeps (body E t).
Proof. destruct t; cbn [body]; keeps_code. Qed.

Lemma keeps_run_task E t : keeps (run_task E t).
Proof.
  intros s. unfold run_task.
  pose proof (keeps_body E t s) as H.
  destruct (body E t s) as [[t'|] s'|s'|s']; auto using history_refl.
  pose proof (keeps_body E t' s') as H'.
  destruct (body E t' s'); eauto using history_trans.
Qed.
#[local] Hint Resolve keeps_run_task : keeps.

Lemma keeps_run_tasks E ts : keeps (run_tasks E ts).
Proof.
  induction ts as [|t rest IH]; cbn [run_tasks]; repeat keeps_step.
Qed.

Lemma keeps_run_pass E : keeps (run_pass E).
Proof.
  intros s. open_state s. unfold_code.
  match goal with
  | |- context [run_tasks E pd ?s0] =>
      pose proof (keeps_run_tasks E pd s0) as H;
      destruct (run_tasks E pd s0) as [parked [m' [ch' al' pe' sg' files' pd']]|s'|s']
  end; exact H.
Qed.
#[local] Hint Resolve keeps_run_pass : keeps.

Lemma keeps_await_loop E fuel c : keeps (await_loop E fuel c).
Proof.
  induction fuel as [|fuel IH]; cbn [await_loop]; repeat keeps_step.
Qed.

Lemma keeps_await E c : keeps (await E c).
Proof.
  unfold await. repeat keeps_step. apply keeps_await_loop.
Qed.
#[local] Hint Resolve keeps_await : keeps.





End NodeFacts.

(* ================================================================== *)
(** * Properties of the notifier mock *)
(* ================================================================== *)
Module MockFacts.
Import Mock.

Lemma append_tokens_app varargs tokens :
  append_tokens varargs tokens = varargs ++ map AnyString tokens.
Proof.
  revert varargs. induction tokens as [|a rest IH]; intros varargs; cbn.
  - by rewrite app_nil_r.
  - by rewrite IH, <- app_assoc.
Qed.

(** X15.  A call of the mock's [Notify] and an expectation recorded
    with the recorder's [Notify] for the same body and tokens reach the
    controller with the same method name and the same arguments: the
    body first, then every token, in order.  The call is noted whatever
    the controller answers, and it is the only thing that changes; the
    mock returns the controller's first value if that is an error, nil
    if it is something else, and panics when the controller answers
    with no value. *)
Theorem Notify_matches_expectation returns body tokens ctrl :
  calls (ctrl_of (Notify returns body tokens ctrl)) =
    calls ctrl ++ [("Notify", body :: map AnyString tokens)] /\
  expected (ctrl_of (Notify returns body tokens ctrl)) = expected ctrl /\
  expected (Recorder_Notify body (map AnyString tokens) ctrl) =
    expected ctrl ++ [("Notify", body :: map AnyString tokens)] /\
  calls (Recorder_Notify body (map AnyString tokens) ctrl) = calls ctrl /\
  match returns "Notify" (body :: map AnyString tokens) with
  | [] => exists ctrl', Notify returns body tokens ctrl = Panic ctrl'
  | AnyError e :: _ =>
      exists ctrl', Notify returns body tokens ctrl = Ret (Some e) ctrl'
  | _ :: _ => exists ctrl', Notify returns body tokens ctrl = Ret None ctrl'
  end.
Proof.
  unfold Notify, Recorder_Notify, ctrl_Call, ctrl_RecordCall.
  rewrite append_tokens_app. cbn [app].
  destruct (returns "Notify" (body :: map AnyString tokens)) as [|[] ?];
    cbn; repeat split; eauto.
Qed.

End MockFacts.
